(** * geniusrise-prompt-actions: REST wrapper functions over a mocked HTTP layer

    The repository is a flat catalogue of wrapper functions around the
    [requests] library.  Every wrapper builds a URL, headers and a payload,
    issues an HTTP call, and returns either a value computed from the response
    or [str(e)] of a caught [requests.RequestException].

    The embedding is shallow: Python values are an inductive type, the effects
    of a wrapper (HTTP calls, file accesses, log records, raised exceptions) are
    threaded through a small state-and-exception monad, and the HTTP layer is a
    function from requests to outcomes, as a test with a mocked [requests]
    module would provide it. *)

From Stdlib Require Import ZArith String List Bool Lia DecimalString.
Import ListNotations.

Open Scope Z_scope.
Open Scope string_scope.

Set Warnings "-register-all".

(** ** Python values *)

Inductive pyval : Type :=
| PNone
| PBool (b : bool)
| PInt (n : Z)
| PStr (s : string)
| PBytes (s : string)
| PList (items : list pyval)
| PTuple (items : list pyval)
| PDict (entries : list (string * pyval)).

(** [v is not None] *)
Definition is_not_None (v : pyval) : bool :=
  match v with PNone => false | _ => true end.

Definition is_str (v : pyval) : bool :=
  match v with PStr _ => true | _ => false end.

Definition is_dict_or_list (v : pyval) : bool :=
  match v with PDict _ | PList _ => true | _ => false end.

(** An [Optional[str]] / [Optional[bool]] / [Optional[int]] argument as the
    Python value that is stored in a payload. *)
Definition opt_str (o : option string) : pyval :=
  match o with Some s => PStr s | None => PNone end.

Definition opt_bool (o : option bool) : pyval :=
  match o with Some b => PBool b | None => PNone end.

Definition opt_int (o : option Z) : pyval :=
  match o with Some n => PInt n | None => PNone end.

Definition opt_str_list (o : option (list string)) : pyval :=
  match o with Some l => PList (map PStr l) | None => PNone end.

(** Truth value of an [Optional[str]]: [None] and the empty string are false. *)
Definition truthy_opt_str (o : option string) : bool :=
  match o with
  | Some s => negb (String.eqb s EmptyString)
  | None => false
  end.

(** [str(n)] for an integer, as an f-string renders [{n}]. *)
Definition str_of_int (n : Z) : string := NilZero.string_of_int (Z.to_int n).

(** Dictionary lookup on an insertion-ordered dict. *)
Fixpoint dict_get {A : Type} (d : list (string * A)) (k : string) : option A :=
  match d with
  | [] => None
  | (k', v) :: rest => if String.eqb k' k then Some v else dict_get rest k
  end.

Definition dict_keys {A : Type} (d : list (string * A)) : list string :=
  map fst d.

(** ** Exceptions *)

Inductive exn : Type :=
| RequestException (cls : string) (msg : string)
    (* requests.RequestException and its subclasses: ConnectionError,
       Timeout, HTTPError, ... ; [cls] is the subclass name *)
| OSError (msg : string)
| KeyError (key : string)
| TypeError (msg : string)
| AttributeError (msg : string)
| UnboundLocalError (var : string)
| OtherException (cls : string) (msg : string).

(** [isinstance(e, requests.RequestException)] *)
Definition is_RequestException (e : exn) : bool :=
  match e with RequestException _ _ => true | _ => false end.

(** [str(e)] for the exceptions the handlers convert. *)
Definition str_exn (e : exn) : string :=
  match e with
  | RequestException _ msg => msg
  | OSError msg => msg
  | KeyError key => "'" ++ key ++ "'"
  | TypeError msg => msg
  | AttributeError msg => msg
  | UnboundLocalError var =>
      "cannot access local variable '" ++ var ++ "' where it is not associated with a value"
  | OtherException _ msg => msg
  end.

Inductive pyres (A : Type) : Type :=
| Returns (a : A)
| Raises (e : exn).
Arguments Returns {A} a.
Arguments Raises {A} e.

(** ** The HTTP layer *)

Inductive http_method : Type := GET | POST | PUT | PATCH | DELETE.

(** One call [requests.<verb>(url, headers=..., params=..., json=..., data=...,
    files=..., auth=...)]; a keyword that the call site does not pass is [None]. *)
Record request : Type := mkRequest {
  req_method : http_method;
  req_url : string;
  req_headers : option pyval;
  req_params : option pyval;
  req_json : option pyval;
  req_data : option pyval;
  req_files : option pyval;
  req_auth : option pyval
}.

(** What the wrappers read of a [requests.Response]: the status line, the raw
    content and the behaviour of [.json()], which either returns the decoded
    body or raises. *)
Record response : Type := mkResponse {
  status_code : Z;
  reason : string;
  resp_url : string;
  content : string;
  json_decoded : pyres pyval
}.

Definition http_layer : Type := request -> pyres response.

(** ** The local file system, as far as [open] sees it

    The file system is what [open] finds under each path it may be given.  A
    path with an entry is a regular file, a directory, or a name that [open]
    refuses with the stated OS error (its parent directory does not exist,
    permission is denied, ...).  A path with no entry is a free name in an
    existing, writable directory: reading it fails, writing creates the file.
    The empty path is never a file.  A file is known by the spelling of its
    path: two spellings of one file (doubled slashes, links, relative paths)
    are different keys, so the model says nothing about the other names of a
    file that a wrapper opens. *)

Inductive fsnode : Type :=
| RegularFile (data : string)
| Directory
| Inaccessible (os_error : string).

Definition filesystem : Type := list (string * fsnode).

Fixpoint fs_write (fs : filesystem) (path : string) (data : string) : filesystem :=
  match fs with
  | [] => [(path, RegularFile data)]
  | (p, n) :: rest =>
      if String.eqb p path then (p, RegularFile data) :: rest
      else (p, n) :: fs_write rest path data
  end.

(** ** Run-time state and the wrapper monad *)

Record runtime : Type := mkRuntime {
  files : filesystem;
  exchanges : list (request * pyres response);  (* HTTP calls issued, oldest first *)
  log_records : list string                      (* logging output, oldest first *)
}.

Definition M (A : Type) : Type := http_layer -> runtime -> pyres A * runtime.

Definition ret {A : Type} (a : A) : M A := fun _ st => (Returns a, st).

Definition raise {A : Type} (e : exn) : M A := fun _ st => (Raises e, st).

Definition bind {A B : Type} (m : M A) (k : A -> M B) : M B :=
  fun http st =>
    match m http st with
    | (Returns a, st') => k a http st'
    | (Raises e, st') => (Raises e, st')
    end.

Notation "x <- m ;; k" := (bind m (fun x => k))
  (at level 61, m at next level, right associativity).
Notation "m ;;; k" := (bind m (fun _ => k))
  (at level 61, right associativity).

(** [try: body  except requests.RequestException as e: handler(e)] *)
Definition try_except_RequestException {A : Type} (body : M A) (handler : exn -> M A) : M A :=
  fun http st =>
    match body http st with
    | (Returns a, st') => (Returns a, st')
    | (Raises e, st') =>
        if is_RequestException e then handler e http st' else (Raises e, st')
    end.

(** [logging.error(msg)] / [logging.warning(msg)] *)
Definition logging_error (msg : string) : M unit :=
  fun _ st =>
    (Returns tt, mkRuntime (files st) (exchanges st) (List.app (log_records st) [("ERROR:" ++ msg)])).

Definition logging_warning (msg : string) : M unit :=
  fun _ st =>
    (Returns tt, mkRuntime (files st) (exchanges st) (List.app (log_records st) [("WARNING:" ++ msg)])).

(** [open(path, "rb")], read through by the HTTP layer as the upload's content. *)
Definition open_rb (path : string) : M string :=
  fun _ st =>
    if String.eqb path EmptyString then
      (Raises (OSError ("[Errno 2] No such file or directory: '" ++ path ++ "'")), st)
    else
      match dict_get (files st) path with
      | Some (RegularFile data) => (Returns data, st)
      | Some Directory =>
          (Raises (OSError ("[Errno 21] Is a directory: '" ++ path ++ "'")), st)
      | Some (Inaccessible os_error) => (Raises (OSError os_error), st)
      | None =>
          (Raises (OSError ("[Errno 2] No such file or directory: '" ++ path ++ "'")), st)
      end.

(** [with open(path, "wb") as f: f.write(data)]: an existing regular file is
    truncated and a free name is created; a directory, a name [open] refuses
    and the empty path raise [OSError] and nothing is written. *)
Definition open_wb_write (path : string) (data : string) : M unit :=
  fun _ st =>
    if String.eqb path EmptyString then
      (Raises (OSError ("[Errno 2] No such file or directory: '" ++ path ++ "'")), st)
    else
      match dict_get (files st) path with
      | Some Directory =>
          (Raises (OSError ("[Errno 21] Is a directory: '" ++ path ++ "'")), st)
      | Some (Inaccessible os_error) => (Raises (OSError os_error), st)
      | Some (RegularFile _) | None =>
          (Returns tt,
           mkRuntime (fs_write (files st) path data) (exchanges st) (log_records st))
      end.

(** The [requests] verbs: the call is recorded and answered by the HTTP layer. *)
Definition requests_call (r : request) : M response :=
  fun http st =>
    (http r, mkRuntime (files st) (List.app (exchanges st) [(r, http r)]) (log_records st)).

(** [Response.raise_for_status()] of the requests library: an [HTTPError] for
    a status in 400..599, nothing otherwise. *)
Definition raise_for_status (resp : response) : M unit :=
  if ((400 <=? status_code resp)%Z && (status_code resp <? 500)%Z)%bool then
    raise (RequestException "HTTPError"
             (str_of_int (status_code resp) ++ " Client Error: " ++ reason resp
              ++ " for url: " ++ resp_url resp))
  else if ((500 <=? status_code resp)%Z && (status_code resp <? 600)%Z)%bool then
    raise (RequestException "HTTPError"
             (str_of_int (status_code resp) ++ " Server Error: " ++ reason resp
              ++ " for url: " ++ resp_url resp))
  else ret tt.

(** [Response.json()] *)
Definition response_json (resp : response) : M pyval :=
  fun _ st => (json_decoded resp, st).

(** [type(v).__name__] *)
Definition py_type_name (v : pyval) : string :=
  match v with
  | PNone => "NoneType"
  | PBool _ => "bool"
  | PInt _ => "int"
  | PStr _ => "str"
  | PBytes _ => "bytes"
  | PList _ => "list"
  | PTuple _ => "tuple"
  | PDict _ => "dict"
  end.

(** [str(e)] of the [AttributeError] for a value without the attribute. *)
Definition no_attribute_text (v : pyval) (attribute : string) : string :=
  "'" ++ py_type_name v ++ "' object has no attribute '" ++ attribute ++ "'".

(** [value.get(key, default)]: only a dict has [.get]. *)
Definition py_get (v : pyval) (key : string) (default : pyval) : M pyval :=
  match v with
  | PDict d => ret (match dict_get d key with Some x => x | None => default end)
  | _ => raise (AttributeError (no_attribute_text v "get"))
  end.

(** [str(e)] of the [TypeError] for [value[key]] with a string key on a value
    that is not a dict (the wording of CPython 3.11). *)
Definition str_subscript_error_text (v : pyval) : string :=
  match v with
  | PList _ => "list indices must be integers or slices, not str"
  | PTuple _ => "tuple indices must be integers or slices, not str"
  | PBytes _ => "byte indices must be integers or slices, not str"
  | PStr _ => "string indices must be integers, not 'str'"
  | _ => "'" ++ py_type_name v ++ "' object is not subscriptable"
  end.

(** [value[key]] for a string key. *)
Definition py_subscript (v : pyval) (key : string) : M pyval :=
  match v with
  | PDict d =>
      match dict_get d key with
      | Some x => ret x
      | None => raise (KeyError key)
      end
  | _ => raise (TypeError (str_subscript_error_text v))
  end.

(** [auth[key]] for the [Dict[str, str]] credential of the Jira wrappers. *)
Definition auth_item (auth : list (string * string)) (key : string) : M pyval :=
  match dict_get auth key with
  | Some x => ret (PStr x)
  | None => raise (KeyError key)
  end.

(** The handler every guarded wrapper shares:
    [logging.error(f"An error occurred: {e}"); return str(e)]. *)
Definition log_and_stringify (e : exn) : M pyval :=
  logging_error ("An error occurred: " ++ str_exn e) ;;;
  ret (PStr (str_exn e)).

(** The state a wrapper starts from, and what a caller observes of a run. *)
Definition initial (fs : filesystem) : runtime := mkRuntime fs [] [].

Definition run_result {A : Type} (m : M A) (http : http_layer) (fs : filesystem) : pyres A :=
  fst (m http (initial fs)).

Definition run_exchanges {A : Type} (m : M A) (http : http_layer) (fs : filesystem)
  : list (request * pyres response) :=
  exchanges (snd (m http (initial fs))).

Definition run_requests {A : Type} (m : M A) (http : http_layer) (fs : filesystem)
  : list request :=
  map fst (run_exchanges m http fs).

Definition run_files {A : Type} (m : M A) (http : http_layer) (fs : filesystem) : filesystem :=
  files (snd (m http (initial fs))).

Definition run_log {A : Type} (m : M A) (http : http_layer) (fs : filesystem) : list string :=
  log_records (snd (m http (initial fs))).

(** Keyword arguments of a [requests] call.  The source passes the URL
    positionally and nothing but these six keywords. *)
Inductive kwarg : Type :=
| headers_kw (h : pyval)
| params_kw (p : pyval)
| json_kw (j : pyval)
| data_kw (d : pyval)
| files_kw (f : pyval)
| auth_kw (a : pyval).

Definition set_kwarg (k : kwarg) (r : request) : request :=
  match k with
  | headers_kw h =>
      mkRequest (req_method r) (req_url r) (Some h) (req_params r) (req_json r)
                (req_data r) (req_files r) (req_auth r)
  | params_kw p =>
      mkRequest (req_method r) (req_url r) (req_headers r) (Some p) (req_json r)
                (req_data r) (req_files r) (req_auth r)
  | json_kw j =>
      mkRequest (req_method r) (req_url r) (req_headers r) (req_params r) (Some j)
                (req_data r) (req_files r) (req_auth r)
  | data_kw d =>
      mkRequest (req_method r) (req_url r) (req_headers r) (req_params r) (req_json r)
                (Some d) (req_files r) (req_auth r)
  | files_kw f =>
      mkRequest (req_method r) (req_url r) (req_headers r) (req_params r) (req_json r)
                (req_data r) (Some f) (req_auth r)
  | auth_kw a =>
      mkRequest (req_method r) (req_url r) (req_headers r) (req_params r) (req_json r)
                (req_data r) (req_files r) (Some a)
  end.

Definition build_request (m : http_method) (url : string) (kwargs : list kwarg) : request :=
  fold_left (fun r k => set_kwarg k r) kwargs (mkRequest m url None None None None None None).

Definition requests_get (url : string) (kwargs : list kwarg) : M response :=
  requests_call (build_request GET url kwargs).
Definition requests_post (url : string) (kwargs : list kwarg) : M response :=
  requests_call (build_request POST url kwargs).
Definition requests_put (url : string) (kwargs : list kwarg) : M response :=
  requests_call (build_request PUT url kwargs).
Definition requests_patch (url : string) (kwargs : list kwarg) : M response :=
  requests_call (build_request PATCH url kwargs).
Definition requests_delete (url : string) (kwargs : list kwarg) : M response :=
  requests_call (build_request DELETE url kwargs).

(** [{x}] in an f-string for an [Optional[str]]: [None] is rendered "None". *)
Definition str_of_opt_str (o : option string) : string :=
  match o with Some s => s | None => "None" end.

(** Truth value of an [Optional[List[str]]]: [None] and the empty list are
    false. *)
Definition truthy_opt_list (o : option (list string)) : bool :=
  match o with
  | Some (_ :: _) => true
  | _ => false
  end.

(** ** The wrappers

    One module per source file, under a module per provider.  Arguments have
    the types of the source's annotations: [str] is [string], [int] is [Z],
    [Optional[t]] is [option t], the opaque Confluence credential tuple is a
    [pyval], the Jira credential [Dict[str, str]] an association list. *)

Module confluence.

Module pages.

Definition create_page (base_url : string) (auth : pyval)
                       (space_key title content : string) : M pyval :=
  let url := base_url ++ "/rest/api/content" in
  let headers := PDict [("Content-Type", PStr "application/json")] in
  let payload :=
    PDict [("type", PStr "page");
           ("title", PStr title);
           ("space", PDict [("key", PStr space_key)]);
           ("body", PDict [("storage",
                            PDict [("value", PStr content);
                                   ("representation", PStr "storage")])])] in
  try_except_RequestException
    (response <- requests_post url [headers_kw headers; json_kw payload; auth_kw auth] ;;
     raise_for_status response ;;;
     response_json response)
    log_and_stringify.

Definition read_page (base_url : string) (auth : pyval) (page_id : string) : M pyval :=
  let url := base_url ++ "/rest/api/content/" ++ page_id in
  try_except_RequestException
    (response <- requests_get url [auth_kw auth] ;;
     raise_for_status response ;;;
     response_json response)
    log_and_stringify.

Definition update_page (base_url : string) (auth : pyval) (page_id : string)
                       (version : Z) (title content : string) : M pyval :=
  let url := base_url ++ "/rest/api/content/" ++ page_id in
  let headers := PDict [("Content-Type", PStr "application/json")] in
  let payload :=
    PDict [("version", PDict [("number", PInt (version + 1))]);
           ("title", PStr title);
           ("type", PStr "page");
           ("body", PDict [("storage",
                            PDict [("value", PStr content);
                                   ("representation", PStr "storage")])])] in
  try_except_RequestException
    (response <- requests_put url [headers_kw headers; json_kw payload; auth_kw auth] ;;
     raise_for_status response ;;;
     response_json response)
    log_and_stringify.

Definition delete_page (base_url : string) (auth : pyval) (page_id : string) : M pyval :=
  let url := base_url ++ "/rest/api/content/" ++ page_id in
  try_except_RequestException
    (response <- requests_delete url [auth_kw auth] ;;
     raise_for_status response ;;;
     ret (PDict [("status", PStr "Page deleted successfully")]))
    log_and_stringify.

Definition list_pages_by_space (base_url : string) (auth : pyval)
                               (space_key : string) (limit : Z) : M pyval :=
  let url := base_url ++ "/rest/api/content" in
  let params :=
    PDict [("spaceKey", PStr space_key); ("limit", PInt limit); ("type", PStr "page")] in
  try_except_RequestException
    (response <- requests_get url [params_kw params; auth_kw auth] ;;
     raise_for_status response ;;;
     response_json response)
    log_and_stringify.

End pages.

Module attachments.

Definition upload_attachment (base_url : string) (auth : pyval)
                             (page_id file_path : string) : M pyval :=
  let url := base_url ++ "/rest/api/content/" ++ page_id ++ "/child/attachment" in
  let headers := PDict [("X-Atlassian-Token", PStr "no-check")] in
  try_except_RequestException
    (f <- open_rb file_path ;;
     let files := PDict [("file", PBytes f)] in
     response <- requests_post url [headers_kw headers; files_kw files; auth_kw auth] ;;
     raise_for_status response ;;;
     response_json response)
    log_and_stringify.

Definition download_attachment (base_url : string) (auth : pyval)
                               (attachment_id save_path : string) : M pyval :=
  let url := base_url ++ "/rest/api/content/" ++ attachment_id ++ "/download" in
  try_except_RequestException
    (response <- requests_get url [auth_kw auth] ;;
     raise_for_status response ;;;
     open_wb_write save_path (content response) ;;;
     ret PNone)
    log_and_stringify.

End attachments.

End confluence.

Module discord.

Module messages.

Definition send_message (token channel_id content : string) : M pyval :=
  let url := "https://discord.com/api/v9/channels/" ++ channel_id ++ "/messages" in
  let headers := PDict [("Authorization", PStr ("Bot " ++ token));
                        ("Content-Type", PStr "application/json")] in
  let payload := PDict [("content", PStr content)] in
  try_except_RequestException
    (response <- requests_post url [headers_kw headers; json_kw payload] ;;
     raise_for_status response ;;;
     response_json response)
    log_and_stringify.

Definition delete_message (token channel_id message_id : string) : M pyval :=
  let url := "https://discord.com/api/v9/channels/" ++ channel_id
             ++ "/messages/" ++ message_id in
  let headers := PDict [("Authorization", PStr ("Bot " ++ token))] in
  try_except_RequestException
    (response <- requests_delete url [headers_kw headers] ;;
     raise_for_status response ;;;
     ret (PDict [("status", PStr "Message deleted successfully")]))
    log_and_stringify.

End messages.

End discord.

Module github.

Module repo.

(** No [try], no [raise_for_status]: the annotation promises a dict only. *)
Definition create_repository (auth_token name : string) (description : option string)
                             (private : bool) (organization : option string) : M pyval :=
  let url := "https://api.github.com/"
             ++ (if truthy_opt_str organization
                 then "orgs/" ++ match organization with Some o => o | None => EmptyString end
                 else "user")
             ++ "/repos" in
  let headers := PDict [("Authorization", PStr ("token " ++ auth_token))] in
  let payload := PDict [("name", PStr name);
                        ("description", opt_str description);
                        ("private", PBool private)] in
  response <- requests_post url [headers_kw headers; json_kw payload] ;;
  response_json response.

Definition delete_repository (auth_token owner repo : string) : M pyval :=
  let url := "https://api.github.com/repos/" ++ owner ++ "/" ++ repo in
  let headers := PDict [("Authorization", PStr ("token " ++ auth_token))] in
  response <- requests_delete url [headers_kw headers] ;;
  response_json response.

(** [{k: v for k, v in payload.items() if v is not None}] *)
Definition remove_None_values (payload : list (string * pyval)) : list (string * pyval) :=
  filter (fun kv => is_not_None (snd kv)) payload.

Definition update_repository_payload (name description : option string)
                                     (private : option bool) : list (string * pyval) :=
  remove_None_values [("name", opt_str name);
                      ("description", opt_str description);
                      ("private", opt_bool private)].

Definition update_repository (auth_token owner repo : string)
                             (name description : option string)
                             (private : option bool) : M pyval :=
  let url := "https://api.github.com/repos/" ++ owner ++ "/" ++ repo in
  let headers := PDict [("Authorization", PStr ("token " ++ auth_token))] in
  let payload := PDict (update_repository_payload name description private) in
  response <- requests_patch url [headers_kw headers; json_kw payload] ;;
  response_json response.

Definition fork_repository (auth_token owner repo : string)
                           (organization : option string) : M pyval :=
  let url := "https://api.github.com/repos/" ++ owner ++ "/" ++ repo ++ "/forks" in
  let headers := PDict [("Authorization", PStr ("token " ++ auth_token))] in
  let payload := if truthy_opt_str organization
                 then PDict [("organization", opt_str organization)]
                 else PDict [] in
  try_except_RequestException
    (response <- requests_post url [headers_kw headers; json_kw payload] ;;
     raise_for_status response ;;;
     response_json response)
    log_and_stringify.

Definition star_repository (auth_token owner repo : string) : M pyval :=
  let url := "https://api.github.com/user/starred/" ++ owner ++ "/" ++ repo in
  let headers := PDict [("Authorization", PStr ("token " ++ auth_token))] in
  try_except_RequestException
    (response <- requests_put url [headers_kw headers] ;;
     raise_for_status response ;;;
     ret (PStr "Successfully starred the repository."))
    log_and_stringify.

Definition get_repository_topics (auth_token owner repo : string) : M pyval :=
  let url := "https://api.github.com/repos/" ++ owner ++ "/" ++ repo ++ "/topics" in
  let headers := PDict [("Authorization", PStr ("token " ++ auth_token));
                        ("Accept", PStr "application/vnd.github.mercy-preview+json")] in
  try_except_RequestException
    (response <- requests_get url [headers_kw headers] ;;
     raise_for_status response ;;;
     body <- response_json response ;;
     py_get body "names" (PList []))
    log_and_stringify.

Definition list_user_repositories (auth_token username : string) (sort : option string)
                                  (per_page page : Z) : M pyval :=
  let url := "https://api.github.com/users/" ++ username ++ "/repos?sort="
             ++ str_of_opt_str sort ++ "&per_page=" ++ str_of_int per_page
             ++ "&page=" ++ str_of_int page in
  let headers := PDict [("Authorization", PStr ("token " ++ auth_token))] in
  try_except_RequestException
    (response <- requests_get url [headers_kw headers] ;;
     raise_for_status response ;;;
     response_json response)
    log_and_stringify.

End repo.

Module pr.

Definition create_issue (auth_token owner repo title : string) (body : option string)
                        (labels assignees : option (list string))
                        (milestone : option Z) : M pyval :=
  let url := "https://api.github.com/repos/" ++ owner ++ "/" ++ repo ++ "/issues" in
  let headers := PDict [("Authorization", PStr ("token " ++ auth_token))] in
  let payload := PDict [("title", PStr title);
                        ("body", opt_str body);
                        ("labels", opt_str_list labels);
                        ("assignees", opt_str_list assignees);
                        ("milestone", opt_int milestone)] in
  try_except_RequestException
    (response <- requests_post url [headers_kw headers; json_kw payload] ;;
     raise_for_status response ;;;
     response_json response)
    log_and_stringify.

(** Unlike [update_repository], nothing is filtered out of the payload. *)
Definition update_issue (auth_token owner repo : string) (issue_number : Z)
                        (title body state : option string)
                        (labels assignees : option (list string))
                        (milestone : option Z) : M pyval :=
  let url := "https://api.github.com/repos/" ++ owner ++ "/" ++ repo
             ++ "/issues/" ++ str_of_int issue_number in
  let headers := PDict [("Authorization", PStr ("token " ++ auth_token))] in
  let payload := PDict [("title", opt_str title);
                        ("body", opt_str body);
                        ("state", opt_str state);
                        ("labels", opt_str_list labels);
                        ("assignees", opt_str_list assignees);
                        ("milestone", opt_int milestone)] in
  try_except_RequestException
    (response <- requests_patch url [headers_kw headers; json_kw payload] ;;
     raise_for_status response ;;;
     response_json response)
    log_and_stringify.

Definition remove_milestone (auth_token owner repo : string) (issue_number : Z) : M pyval :=
  let url := "https://api.github.com/repos/" ++ owner ++ "/" ++ repo
             ++ "/issues/" ++ str_of_int issue_number in
  let headers := PDict [("Authorization", PStr ("token " ++ auth_token))] in
  let payload := PDict [("milestone", PNone)] in
  try_except_RequestException
    (response <- requests_patch url [headers_kw headers; json_kw payload] ;;
     raise_for_status response ;;;
     ret (PStr "Milestone removed successfully."))
    log_and_stringify.

End pr.

Module user.

Definition follow_user (auth_token username : string) : M pyval :=
  let url := "https://api.github.com/user/following/" ++ username in
  let headers := PDict [("Authorization", PStr ("token " ++ auth_token))] in
  try_except_RequestException
    (response <- requests_put url [headers_kw headers] ;;
     raise_for_status response ;;;
     ret (PStr "User followed successfully."))
    log_and_stringify.

End user.

End github.

Module gitlab.

Module group.

(** An [action] other than "add" or "remove" leaves [response] unbound. *)
Definition manage_group_members (server_url auth_token : string) (group_id user_id : Z)
                                (action : string) (access_level : Z) : M pyval :=
  let url := server_url ++ "/api/v4/groups/" ++ str_of_int group_id
             ++ "/members/" ++ str_of_int user_id in
  let headers := PDict [("Authorization", PStr ("Bearer " ++ auth_token))] in
  let payload := PDict [("access_level", PInt access_level)] in
  try_except_RequestException
    (response <-
       (if String.eqb action "add" then
          requests_post url [headers_kw headers; json_kw payload]
        else if String.eqb action "remove" then
          requests_delete url [headers_kw headers]
        else raise (UnboundLocalError "response")) ;;
     raise_for_status response ;;;
     ret (PStr "Group member managed successfully."))
    log_and_stringify.

Definition manage_group_projects (server_url auth_token : string) (group_id project_id : Z)
                                 (action : string) : M pyval :=
  let url := server_url ++ "/api/v4/groups/" ++ str_of_int group_id
             ++ "/projects/" ++ str_of_int project_id in
  let headers := PDict [("Authorization", PStr ("Bearer " ++ auth_token))] in
  try_except_RequestException
    (response <-
       (if String.eqb action "add" then
          requests_post url [headers_kw headers]
        else if String.eqb action "remove" then
          requests_delete url [headers_kw headers]
        else raise (UnboundLocalError "response")) ;;
     raise_for_status response ;;;
     ret (PStr "Group project managed successfully."))
    log_and_stringify.

End group.

Module jobs.

Definition manage_pipeline_jobs (server_url auth_token : string) (project_id job_id : Z)
                                (action : string) : M pyval :=
  let url := server_url ++ "/api/v4/projects/" ++ str_of_int project_id
             ++ "/jobs/" ++ str_of_int job_id ++ "/" ++ action in
  let headers := PDict [("Authorization", PStr ("Bearer " ++ auth_token))] in
  try_except_RequestException
    (response <- requests_post url [headers_kw headers] ;;
     raise_for_status response ;;;
     ret (PStr ("Job " ++ action ++ "ed successfully.")))
    log_and_stringify.

End jobs.

Module repo.

Definition manage_repository_files (server_url auth_token : string) (project_id : Z)
                                   (file_path action content commit_message : string)
  : M pyval :=
  let url := server_url ++ "/api/v4/projects/" ++ str_of_int project_id
             ++ "/repository/files/" ++ file_path in
  let headers := PDict [("Authorization", PStr ("Bearer " ++ auth_token))] in
  let payload := PDict [("action", PStr action);
                        ("content", PStr content);
                        ("commit_message", PStr commit_message)] in
  try_except_RequestException
    (response <-
       (if String.eqb action "delete" then
          requests_delete url [headers_kw headers; json_kw payload]
        else
          requests_post url [headers_kw headers; json_kw payload]) ;;
     raise_for_status response ;;;
     response_json response)
    log_and_stringify.

End repo.

Module issues.

Definition manage_issue_notes (server_url auth_token : string)
                              (project_id issue_id note_id : Z)
                              (action body : string) : M pyval :=
  let url := server_url ++ "/api/v4/projects/" ++ str_of_int project_id
             ++ "/issues/" ++ str_of_int issue_id
             ++ "/notes/" ++ str_of_int note_id in
  let headers := PDict [("Authorization", PStr ("Bearer " ++ auth_token))] in
  let payload := PDict [("body", PStr body)] in
  try_except_RequestException
    (response <-
       (if String.eqb action "add" then
          requests_post url [headers_kw headers; json_kw payload]
        else if String.eqb action "update" then
          requests_put url [headers_kw headers; json_kw payload]
        else if String.eqb action "delete" then
          requests_delete url [headers_kw headers]
        else raise (UnboundLocalError "response")) ;;
     raise_for_status response ;;;
     ret (PStr "Issue note managed successfully."))
    log_and_stringify.

End issues.

Module mr.

Definition manage_merge_request_notes (server_url auth_token : string)
                                      (project_id merge_request_id note_id : Z)
                                      (action body : string) : M pyval :=
  let url := server_url ++ "/api/v4/projects/" ++ str_of_int project_id
             ++ "/merge_requests/" ++ str_of_int merge_request_id
             ++ "/notes/" ++ str_of_int note_id in
  let headers := PDict [("Authorization", PStr ("Bearer " ++ auth_token))] in
  let payload := PDict [("body", PStr body)] in
  try_except_RequestException
    (response <-
       (if String.eqb action "add" then
          requests_post url [headers_kw headers; json_kw payload]
        else if String.eqb action "update" then
          requests_put url [headers_kw headers; json_kw payload]
        else if String.eqb action "delete" then
          requests_delete url [headers_kw headers]
        else raise (UnboundLocalError "response")) ;;
     raise_for_status response ;;;
     ret (PStr "Merge request note managed successfully."))
    log_and_stringify.

End mr.

Module user.

Definition manage_user_projects (server_url auth_token : string) (user_id project_id : Z)
                                (action : string) : M pyval :=
  let url := server_url ++ "/api/v4/users/" ++ str_of_int user_id
             ++ "/projects/" ++ str_of_int project_id in
  let headers := PDict [("Authorization", PStr ("Bearer " ++ auth_token))] in
  try_except_RequestException
    (response <-
       (if String.eqb action "add" then
          requests_post url [headers_kw headers]
        else if String.eqb action "remove" then
          requests_delete url [headers_kw headers]
        else raise (UnboundLocalError "response")) ;;
     raise_for_status response ;;;
     response_json response)
    log_and_stringify.

Definition manage_user_ssh_keys (server_url auth_token : string) (user_id key_id : Z)
                                (action : string) : M pyval :=
  let url := server_url ++ "/api/v4/users/" ++ str_of_int user_id
             ++ "/keys/" ++ str_of_int key_id in
  let headers := PDict [("Authorization", PStr ("Bearer " ++ auth_token))] in
  try_except_RequestException
    (response <-
       (if String.eqb action "add" then
          requests_post url [headers_kw headers]
        else if String.eqb action "remove" then
          requests_delete url [headers_kw headers]
        else raise (UnboundLocalError "response")) ;;
     raise_for_status response ;;;
     ret (PStr "SSH key managed successfully."))
    log_and_stringify.

Definition manage_user_emails (server_url auth_token : string) (user_id email_id : Z)
                              (action : string) : M pyval :=
  let url := server_url ++ "/api/v4/users/" ++ str_of_int user_id
             ++ "/emails/" ++ str_of_int email_id in
  let headers := PDict [("Authorization", PStr ("Bearer " ++ auth_token))] in
  try_except_RequestException
    (response <-
       (if String.eqb action "add" then
          requests_post url [headers_kw headers]
        else if String.eqb action "remove" then
          requests_delete url [headers_kw headers]
        else raise (UnboundLocalError "response")) ;;
     raise_for_status response ;;;
     ret (PStr "Email address managed successfully."))
    log_and_stringify.

End user.

End gitlab.

Module jira.

Module issues.

(** The credential pair is built while the arguments of [requests.post] are
    evaluated, inside the [try]: ["username"] first, then ["password"]. *)
Definition create_issue (server_url : string) (auth : list (string * string))
                        (project_key issue_type summary description : string) : M pyval :=
  let url := server_url ++ "/rest/api/2/issue" in
  let headers := PDict [("Content-Type", PStr "application/json")] in
  let payload :=
    PDict [("fields",
            PDict [("project", PDict [("key", PStr project_key)]);
                   ("issuetype", PDict [("name", PStr issue_type)]);
                   ("summary", PStr summary);
                   ("description", PStr description)])] in
  try_except_RequestException
    (username <- auth_item auth "username" ;;
     password <- auth_item auth "password" ;;
     response <- requests_post url [headers_kw headers; json_kw payload;
                                    auth_kw (PTuple [username; password])] ;;
     raise_for_status response ;;;
     response_json response)
    log_and_stringify.

Definition read_issue (server_url : string) (auth : list (string * string))
                      (issue_key : string) : M pyval :=
  let url := server_url ++ "/rest/api/2/issue/" ++ issue_key in
  let headers := PDict [("Content-Type", PStr "application/json")] in
  try_except_RequestException
    (username <- auth_item auth "username" ;;
     password <- auth_item auth "password" ;;
     response <- requests_get url [headers_kw headers;
                                   auth_kw (PTuple [username; password])] ;;
     raise_for_status response ;;;
     response_json response)
    log_and_stringify.

Definition add_attachment_to_issue (server_url : string) (auth : list (string * string))
                                   (issue_key file_path : string) : M pyval :=
  let url := server_url ++ "/rest/api/2/issue/" ++ issue_key ++ "/attachments" in
  let headers := PDict [("X-Atlassian-Token", PStr "no-check")] in
  try_except_RequestException
    (f <- open_rb file_path ;;
     let files := PDict [("file", PBytes f)] in
     username <- auth_item auth "username" ;;
     password <- auth_item auth "password" ;;
     response <- requests_post url [headers_kw headers; files_kw files;
                                    auth_kw (PTuple [username; password])] ;;
     raise_for_status response ;;;
     response_json response)
    log_and_stringify.

Definition list_issues_by_filter (server_url : string) (auth : list (string * string))
                                 (jql : string) (fields : option (list string)) : M pyval :=
  let url := server_url ++ "/rest/api/2/search" in
  let headers := PDict [("Content-Type", PStr "application/json")] in
  let params := PDict [("jql", PStr jql);
                       ("fields", if truthy_opt_list fields
                                  then opt_str_list fields
                                  else PStr "summary,key")] in
  try_except_RequestException
    (username <- auth_item auth "username" ;;
     password <- auth_item auth "password" ;;
     response <- requests_get url [headers_kw headers; params_kw params;
                                   auth_kw (PTuple [username; password])] ;;
     raise_for_status response ;;;
     response_json response)
    log_and_stringify.

End issues.

Module boards.

(** A placeholder: no HTTP call at all. *)
Definition update_board (server_url : string) (auth : list (string * string))
                        (board_id : Z) (new_name new_type : string) : M pyval :=
  logging_warning
    "Jira API may not support direct board updates. This is a placeholder function." ;;;
  ret (PStr "Board update feature may not be supported by Jira API.").

End boards.

Module group.

(** A placeholder: no HTTP call at all. *)
Definition update_group (server_url : string) (auth : list (string * string))
                        (group_name new_name : string) : M pyval :=
  logging_warning
    "Jira API may not support direct group name updates. This is a placeholder function." ;;;
  ret (PStr "Group update feature may not be supported by Jira API.").

End group.

Module users.

(** The URL is a plain string literal in the source, not an f-string. *)
Definition list_projects (server_url : string) (auth : list (string * string)) : M pyval :=
  let url := "{server_url}/rest/api/2/project" in
  let headers := PDict [("Content-Type", PStr "application/json")] in
  try_except_RequestException
    (username <- auth_item auth "username" ;;
     password <- auth_item auth "password" ;;
     response <- requests_get url [headers_kw headers;
                                   auth_kw (PTuple [username; password])] ;;
     raise_for_status response ;;;
     body <- response_json response ;;
     projects <- py_subscript body "values" ;;
     ret projects)
    log_and_stringify.

End users.

End jira.

Module slack.

Module messages.

Definition update_message (token channel_id ts text : string) : M pyval :=
  let url := "https://slack.com/api/chat.update" in
  let headers := PDict [("Authorization", PStr ("Bearer " ++ token))] in
  let payload := PDict [("channel", PStr channel_id); ("ts", PStr ts); ("text", PStr text)] in
  try_except_RequestException
    (response <- requests_post url [headers_kw headers; json_kw payload] ;;
     raise_for_status response ;;;
     response_json response)
    log_and_stringify.

Definition delete_message (token channel_id ts : string) : M pyval :=
  let url := "https://slack.com/api/chat.delete" in
  let headers := PDict [("Authorization", PStr ("Bearer " ++ token))] in
  let payload := PDict [("channel", PStr channel_id); ("ts", PStr ts)] in
  try_except_RequestException
    (response <- requests_post url [headers_kw headers; json_kw payload] ;;
     raise_for_status response ;;;
     response_json response)
    log_and_stringify.

End messages.

Module files.

(** The file is opened before the [try] is entered. *)
Definition upload_file (token channels file_path : string) : M pyval :=
  let url := "https://slack.com/api/files.upload" in
  let headers := PDict [("Authorization", PStr ("Bearer " ++ token))] in
  let payload := PDict [("channels", PStr channels)] in
  f <- open_rb file_path ;;
  let files := PDict [("file", PBytes f)] in
  try_except_RequestException
    (response <- requests_post url [headers_kw headers; data_kw payload; files_kw files] ;;
     raise_for_status response ;;;
     response_json response)
    log_and_stringify.

End files.

Module channels.

Definition list_channels (token : string) : M pyval :=
  let url := "https://slack.com/api/conversations.list" in
  let headers := PDict [("Authorization", PStr ("Bearer " ++ token))] in
  try_except_RequestException
    (response <- requests_get url [headers_kw headers] ;;
     raise_for_status response ;;;
     body <- response_json response ;;
     py_get body "channels" (PList []))
    log_and_stringify.

End channels.

End slack.

(** ** The regular shape

    327 of the 345 wrappers have one and the same body and differ only in the
    verb, in the pure construction of the URL and of the keyword arguments,
    and in the value of the success path:

      try:
          response = requests.<verb>(url, <keywords>)
          response.raise_for_status()
          return <response.json() | response.json().get(key, []) | fixed value>
      except requests.RequestException as e:
          logging.error(f"An error occurred: {e}")
          return str(e)

    The Jira wrappers among them pass
    [auth=(auth["username"], auth["password"])] as their last keyword, so the
    two lookups run inside the [try] before the call.  [regular_wrapper]
    is that body with verb, URL, keywords and success path left open:
    255 wrappers return the decoded body, 8 a field of it, 64 a fixed dict or
    message. *)

Inductive on_success : Type :=
| ReturnBody                       (* return response.json() *)
| ReturnField (key : string)       (* return response.json().get(key, []) *)
| ReturnFixed (value : pyval).     (* return {"status": "..."} or a message *)

Definition regular_wrapper (credential : option (list (string * string)))
                           (verb : http_method) (url : string) (kwargs : list kwarg)
                           (success : on_success) : M pyval :=
  try_except_RequestException
    (match credential with
     | None =>
         response <- requests_call (build_request verb url kwargs) ;;
         raise_for_status response ;;;
         match success with
         | ReturnBody => response_json response
         | ReturnField key => body <- response_json response ;; py_get body key (PList [])
         | ReturnFixed value => ret value
         end
     | Some auth =>
         username <- auth_item auth "username" ;;
         password <- auth_item auth "password" ;;
         response <- requests_call
                       (build_request verb url
                          (List.app kwargs [auth_kw (PTuple [username; password])])) ;;
         raise_for_status response ;;;
         match success with
         | ReturnBody => response_json response
         | ReturnField key => body <- response_json response ;; py_get body key (PList [])
         | ReturnFixed value => ret value
         end
     end)
    log_and_stringify.

(** ** The catalogue

    One constructor per embedded wrapper, carrying its arguments; [run] is the
    call.  [Regular] stands for every wrapper of the regular shape.  The 18
    wrappers that are not of that shape are all here: the three unguarded
    GitHub repository wrappers, the eight GitLab action dispatchers, the four
    wrappers that open a local file, Jira [list_projects], and the two Jira
    placeholders that issue no call.  The regular wrappers that the
    specification names are embedded one by one as well. *)

Inductive call : Type :=
| Confluence_create_page (base_url : string) (auth : pyval) (space_key title content : string)
| Confluence_read_page (base_url : string) (auth : pyval) (page_id : string)
| Confluence_update_page (base_url : string) (auth : pyval) (page_id : string)
                         (version : Z) (title content : string)
| Confluence_delete_page (base_url : string) (auth : pyval) (page_id : string)
| Confluence_list_pages_by_space (base_url : string) (auth : pyval)
                                 (space_key : string) (limit : Z)
| Confluence_upload_attachment (base_url : string) (auth : pyval) (page_id file_path : string)
| Confluence_download_attachment (base_url : string) (auth : pyval)
                                 (attachment_id save_path : string)
| Discord_send_message (token channel_id content : string)
| Discord_delete_message (token channel_id message_id : string)
| GitHub_create_repository (auth_token name : string) (description : option string)
                           (private : bool) (organization : option string)
| GitHub_delete_repository (auth_token owner repo : string)
| GitHub_update_repository (auth_token owner repo : string)
                           (name description : option string) (private : option bool)
| GitHub_fork_repository (auth_token owner repo : string) (organization : option string)
| GitHub_star_repository (auth_token owner repo : string)
| GitHub_get_repository_topics (auth_token owner repo : string)
| GitHub_create_issue (auth_token owner repo title : string) (body : option string)
                      (labels assignees : option (list string)) (milestone : option Z)
| GitHub_follow_user (auth_token username : string)
| GitLab_manage_group_members (server_url auth_token : string) (group_id user_id : Z)
                              (action : string) (access_level : Z)
| GitLab_manage_pipeline_jobs (server_url auth_token : string) (project_id job_id : Z)
                              (action : string)
| GitLab_manage_repository_files (server_url auth_token : string) (project_id : Z)
                                 (file_path action content commit_message : string)
| GitLab_manage_issue_notes (server_url auth_token : string)
                            (project_id issue_id note_id : Z) (action body : string)
| Jira_create_issue (server_url : string) (auth : list (string * string))
                    (project_key issue_type summary description : string)
| Jira_read_issue (server_url : string) (auth : list (string * string)) (issue_key : string)
| Jira_add_attachment_to_issue (server_url : string) (auth : list (string * string))
                               (issue_key file_path : string)
| Jira_update_board (server_url : string) (auth : list (string * string))
                    (board_id : Z) (new_name new_type : string)
| Jira_list_projects (server_url : string) (auth : list (string * string))
| Slack_update_message (token channel_id ts text : string)
| Slack_delete_message (token channel_id ts : string)
| Slack_upload_file (token channels file_path : string)
| Slack_list_channels (token : string)
| GitLab_manage_group_projects (server_url auth_token : string) (group_id project_id : Z)
                               (action : string)
| GitLab_manage_merge_request_notes (server_url auth_token : string)
                                    (project_id merge_request_id note_id : Z)
                                    (action body : string)
| GitLab_manage_user_projects (server_url auth_token : string) (user_id project_id : Z)
                              (action : string)
| GitLab_manage_user_ssh_keys (server_url auth_token : string) (user_id key_id : Z)
                              (action : string)
| GitLab_manage_user_emails (server_url auth_token : string) (user_id email_id : Z)
                            (action : string)
| Jira_update_group (server_url : string) (auth : list (string * string))
                    (group_name new_name : string)
| Regular (credential : option (list (string * string))) (verb : http_method)
          (url : string) (kwargs : list kwarg) (success : on_success).

Definition run (c : call) : M pyval :=
  match c with
  | Confluence_create_page b a s t c => confluence.pages.create_page b a s t c
  | Confluence_read_page b a p => confluence.pages.read_page b a p
  | Confluence_update_page b a p v t c => confluence.pages.update_page b a p v t c
  | Confluence_delete_page b a p => confluence.pages.delete_page b a p
  | Confluence_list_pages_by_space b a s l => confluence.pages.list_pages_by_space b a s l
  | Confluence_upload_attachment b a p f => confluence.attachments.upload_attachment b a p f
  | Confluence_download_attachment b a i s =>
      confluence.attachments.download_attachment b a i s
  | Discord_send_message t c m => discord.messages.send_message t c m
  | Discord_delete_message t c m => discord.messages.delete_message t c m
  | GitHub_create_repository t n d p o => github.repo.create_repository t n d p o
  | GitHub_delete_repository t o r => github.repo.delete_repository t o r
  | GitHub_update_repository t o r n d p => github.repo.update_repository t o r n d p
  | GitHub_fork_repository t o r g => github.repo.fork_repository t o r g
  | GitHub_star_repository t o r => github.repo.star_repository t o r
  | GitHub_get_repository_topics t o r => github.repo.get_repository_topics t o r
  | GitHub_create_issue t o r ti b l a m => github.pr.create_issue t o r ti b l a m
  | GitHub_follow_user t u => github.user.follow_user t u
  | GitLab_manage_group_members s t g u a l => gitlab.group.manage_group_members s t g u a l
  | GitLab_manage_pipeline_jobs s t p j a => gitlab.jobs.manage_pipeline_jobs s t p j a
  | GitLab_manage_repository_files s t p f a c m =>
      gitlab.repo.manage_repository_files s t p f a c m
  | GitLab_manage_issue_notes s t p i n a b => gitlab.issues.manage_issue_notes s t p i n a b
  | Jira_create_issue s a p i su d => jira.issues.create_issue s a p i su d
  | Jira_read_issue s a k => jira.issues.read_issue s a k
  | Jira_add_attachment_to_issue s a k f => jira.issues.add_attachment_to_issue s a k f
  | Jira_update_board s a b n t => jira.boards.update_board s a b n t
  | Jira_list_projects s a => jira.users.list_projects s a
  | Slack_update_message t c ts x => slack.messages.update_message t c ts x
  | Slack_delete_message t c ts => slack.messages.delete_message t c ts
  | Slack_upload_file t c f => slack.files.upload_file t c f
  | Slack_list_channels t => slack.channels.list_channels t
  | GitLab_manage_group_projects s t g p a => gitlab.group.manage_group_projects s t g p a
  | GitLab_manage_merge_request_notes s t p m n a b =>
      gitlab.mr.manage_merge_request_notes s t p m n a b
  | GitLab_manage_user_projects s t u p a => gitlab.user.manage_user_projects s t u p a
  | GitLab_manage_user_ssh_keys s t u k a => gitlab.user.manage_user_ssh_keys s t u k a
  | GitLab_manage_user_emails s t u e a => gitlab.user.manage_user_emails s t u e a
  | Jira_update_group s a g n => jira.group.update_group s a g n
  | Regular credential verb url kwargs success =>
      regular_wrapper credential verb url kwargs success
  end.

(** ** What a caller and a mocked HTTP layer observe *)

(** The call raised a [requests] exception (connection error, timeout, ...). *)
Definition transport_failure (o : pyres response) : bool :=
  match o with
  | Raises e => is_RequestException e
  | Returns _ => false
  end.

(** The response has a 4xx/5xx status. *)
Definition error_status (r : response) : bool :=
  ((400 <=? status_code r)%Z && (status_code r <? 600)%Z)%bool.

Definition success_status (r : response) : bool :=
  ((200 <=? status_code r)%Z && (status_code r <? 300)%Z)%bool.

Definition http_error_status (o : pyres response) : bool :=
  match o with
  | Raises _ => false
  | Returns r => error_status r
  end.

Definition call_failed (o : pyres response) : bool :=
  (transport_failure o || http_error_status o)%bool.

(** [str(e)] of the [HTTPError] that [raise_for_status] builds. *)
Definition http_error_text (r : response) : string :=
  str_of_int (status_code r)
  ++ (if (status_code r <? 500)%Z then " Client Error: " else " Server Error: ")
  ++ reason r ++ " for url: " ++ resp_url r.

(** The string a guarded wrapper returns for a failed exchange. *)
Definition failure_text (o : pyres response) : string :=
  match o with
  | Raises e => str_exn e
  | Returns r => http_error_text r
  end.

(** The wrapper's HTTP call sits in [try ... except requests.RequestException]
    with [raise_for_status]; the three GitHub repository wrappers at the top of
    github/repo.py have neither, and the two Jira placeholders have no call. *)
Definition has_handler (c : call) : bool :=
  match c with
  | GitHub_create_repository _ _ _ _ _
  | GitHub_delete_repository _ _ _
  | GitHub_update_repository _ _ _ _ _ _
  | Jira_update_board _ _ _ _ _
  | Jira_update_group _ _ _ _ => false
  | _ => true
  end.

(** The success path is [return response.json()]. *)
Definition returns_decoded_body (c : call) : bool :=
  match c with
  | Confluence_create_page _ _ _ _ _
  | Confluence_read_page _ _ _
  | Confluence_update_page _ _ _ _ _ _
  | Confluence_list_pages_by_space _ _ _ _
  | Confluence_upload_attachment _ _ _ _
  | Discord_send_message _ _ _
  | GitHub_create_repository _ _ _ _ _
  | GitHub_delete_repository _ _ _
  | GitHub_update_repository _ _ _ _ _ _
  | GitHub_fork_repository _ _ _ _
  | GitHub_create_issue _ _ _ _ _ _ _ _
  | GitLab_manage_repository_files _ _ _ _ _ _ _
  | Jira_create_issue _ _ _ _ _ _
  | Jira_read_issue _ _ _
  | Jira_add_attachment_to_issue _ _ _ _
  | Slack_update_message _ _ _ _
  | Slack_delete_message _ _ _
  | Slack_upload_file _ _ _
  | GitLab_manage_user_projects _ _ _ _ _
  | Regular _ _ _ _ ReturnBody => true
  | _ => false
  end.

(** The success path is [return {"status": "..."}]. *)
Definition returns_status_dict (c : call) : bool :=
  match c with
  | Confluence_delete_page _ _ _
  | Discord_delete_message _ _ _
  | Regular _ _ _ _ (ReturnFixed (PDict _)) => true
  | _ => false
  end.

(** Guarded wrappers whose success value is the decoded body or a status dict:
    for these the type of the returned value tells failure from success. *)
Definition failure_visible_in_type (c : call) : bool :=
  (has_handler c && (returns_decoded_body c || returns_status_dict c))%bool.

(** The wrappers of the catalogue that are named [delete_...]. *)
Definition delete_style (c : call) : bool :=
  match c with
  | Confluence_delete_page _ _ _
  | Discord_delete_message _ _ _
  | GitHub_delete_repository _ _ _
  | Slack_delete_message _ _ _ => true
  | _ => false
  end.

(** The wrapper calls [open]. *)
Definition opens_file (c : call) : bool :=
  match c with
  | Confluence_upload_attachment _ _ _ _
  | Confluence_download_attachment _ _ _ _
  | Jira_add_attachment_to_issue _ _ _ _
  | Slack_upload_file _ _ _ => true
  | _ => false
  end.

(** ** Sample worlds *)

Definition json_response (status : Z) (why url : string) (body : pyval) : response :=
  mkResponse status why url EmptyString (Returns body).

Definition always (o : pyres response) : http_layer := fun _ => o.

Definition ok_body : pyval := PDict [("id", PStr "42"); ("ok", PBool true)].

Definition not_found_body : pyval := PDict [("message", PStr "Not Found")].

Definition http_ok : http_layer :=
  always (Returns (json_response 200 "OK" "https://example.test/x" ok_body)).

Definition http_not_found : http_layer :=
  always (Returns (json_response 404 "Not Found" "https://example.test/x" not_found_body)).

Definition http_unreachable : http_layer :=
  always (Raises (RequestException "ConnectionError" "Connection refused")).

Definition basic_auth : pyval := PTuple [PStr "alice"; PStr "api-token"].

(** A 204 answer with an empty body, which does not decode. *)
Definition http_no_content : http_layer :=
  always (Returns (mkResponse 204 "No Content" "https://example.test/x" EmptyString
                     (Raises (RequestException "JSONDecodeError"
                                "Expecting value: line 1 column 1 (char 0)")))).

(** A layer whose GET calls fail outside [requests] and whose other calls
    are answered with a body nested too deeply for the decoder, which fails
    with an exception that [.json()] does not wrap. *)
Definition http_by_method : http_layer :=
  fun req =>
    match req_method req with
    | GET => Raises (OtherException "MemoryError" EmptyString)
    | _ => Returns (mkResponse 200 "OK" "https://example.test/x" "[[[[[[[[[["
                      (Raises (OtherException "RecursionError"
                                 "maximum recursion depth exceeded")))
    end.

(** A state left behind by earlier calls. *)
Definition busy_state : runtime :=
  mkRuntime [("/tmp/a.txt", RegularFile "hello")]
            [(mkRequest GET "https://example.test/earlier" None None None None None None,
              Raises (RequestException "Timeout" "timed out"))]
            ["ERROR:An error occurred: timed out"].

(** The answer to an attachment download. *)
Definition http_download : http_layer :=
  always (Returns (mkResponse 200 "OK" "https://wiki.test/rest/api/content/att9/download"
                     "%PDF-1.7" (Raises (RequestException "JSONDecodeError" "Expecting value")))).

(** The project list as Jira answers it: a JSON list. *)
Definition http_project_list : http_layer :=
  always (Returns (json_response 200 "OK" "https://jira.test/rest/api/2/project"
                     (PList [PDict [("key", PStr "PROJ")]]))).

(** A 500 answer with a JSON error body. *)
Definition http_server_error : http_layer :=
  always (Returns (json_response 500 "Internal Server Error" "https://example.test/x"
                     (PDict [("message", PStr "Server Error")]))).

(** ** Evaluation checks of the embedding *)

Example str_of_int_sample :
  str_of_int 404 = "404" /\ str_of_int (-7) = "-7" /\ str_of_int 0 = "0".
Proof. repeat split; reflexivity. Qed.

Example read_page_ok :
  run_result (confluence.pages.read_page "https://wiki.test" basic_auth "77") http_ok []
  = Returns ok_body.
Proof. reflexivity. Qed.

Example read_page_not_found :
  run_result (confluence.pages.read_page "https://wiki.test" basic_auth "77") http_not_found []
  = Returns (PStr "404 Client Error: Not Found for url: https://example.test/x").
Proof. reflexivity. Qed.

Example read_page_not_found_logged :
  run_log (confluence.pages.read_page "https://wiki.test" basic_auth "77") http_not_found []
  = ["ERROR:An error occurred: 404 Client Error: Not Found for url: https://example.test/x"].
Proof. reflexivity. Qed.

Example read_page_request :
  run_requests (confluence.pages.read_page "https://wiki.test" basic_auth "77") http_ok []
  = [mkRequest GET "https://wiki.test/rest/api/content/77" None None None None None
               (Some basic_auth)].
Proof. reflexivity. Qed.

Example manage_pipeline_jobs_message :
  run_result (gitlab.jobs.manage_pipeline_jobs "https://gl.test" "t" 5 9 "retry") http_ok []
  = Returns (PStr "Job retryed successfully.").
Proof. reflexivity. Qed.

Example manage_group_members_unknown_action :
  run_result (gitlab.group.manage_group_members "https://gl.test" "t" 1 2 "promote" 30)
             http_ok []
  = Raises (UnboundLocalError "response").
Proof. reflexivity. Qed.

Example list_projects_literal_url :
  run_requests (jira.users.list_projects "https://jira.test"
                  [("username", "bob"); ("password", "pw")]) http_ok []
  = [mkRequest GET "{server_url}/rest/api/2/project"
               (Some (PDict [("Content-Type", PStr "application/json")]))
               None None None None (Some (PTuple [PStr "bob"; PStr "pw"]))].
Proof. reflexivity. Qed.

(** The regular wrappers that are embedded one by one are instances of
    [regular_wrapper], by unfolding alone. *)
Lemma named_wrappers_are_regular :
  (forall base_url auth page_id,
      confluence.pages.read_page base_url auth page_id
      = regular_wrapper None GET (base_url ++ "/rest/api/content/" ++ page_id)
                        [auth_kw auth] ReturnBody)
  /\ (forall base_url auth page_id,
         confluence.pages.delete_page base_url auth page_id
         = regular_wrapper None DELETE (base_url ++ "/rest/api/content/" ++ page_id)
                           [auth_kw auth]
                           (ReturnFixed (PDict [("status", PStr "Page deleted successfully")])))
  /\ (forall token channel_id content,
         discord.messages.send_message token channel_id content
         = regular_wrapper None POST
                           ("https://discord.com/api/v9/channels/" ++ channel_id ++ "/messages")
                           [headers_kw (PDict [("Authorization", PStr ("Bot " ++ token));
                                               ("Content-Type", PStr "application/json")]);
                            json_kw (PDict [("content", PStr content)])]
                           ReturnBody)
  /\ (forall auth_token owner repo,
         github.repo.star_repository auth_token owner repo
         = regular_wrapper None PUT
                           ("https://api.github.com/user/starred/" ++ owner ++ "/" ++ repo)
                           [headers_kw (PDict [("Authorization",
                                                PStr ("token " ++ auth_token))])]
                           (ReturnFixed (PStr "Successfully starred the repository.")))
  /\ (forall auth_token owner repo,
         github.repo.get_repository_topics auth_token owner repo
         = regular_wrapper None GET
                           ("https://api.github.com/repos/" ++ owner ++ "/" ++ repo ++ "/topics")
                           [headers_kw
                              (PDict [("Authorization", PStr ("token " ++ auth_token));
                                      ("Accept",
                                       PStr "application/vnd.github.mercy-preview+json")])]
                           (ReturnField "names"))
  /\ (forall server_url auth_token project_id job_id action,
         gitlab.jobs.manage_pipeline_jobs server_url auth_token project_id job_id action
         = regular_wrapper None POST
                           (server_url ++ "/api/v4/projects/" ++ str_of_int project_id
                            ++ "/jobs/" ++ str_of_int job_id ++ "/" ++ action)
                           [headers_kw (PDict [("Authorization",
                                                PStr ("Bearer " ++ auth_token))])]
                           (ReturnFixed (PStr ("Job " ++ action ++ "ed successfully."))))
  /\ (forall server_url auth issue_key,
         jira.issues.read_issue server_url auth issue_key
         = regular_wrapper (Some auth) GET (server_url ++ "/rest/api/2/issue/" ++ issue_key)
                           [headers_kw (PDict [("Content-Type", PStr "application/json")])]
                           ReturnBody)
  /\ (forall token channel_id ts text,
         slack.messages.update_message token channel_id ts text
         = regular_wrapper None POST "https://slack.com/api/chat.update"
                           [headers_kw (PDict [("Authorization", PStr ("Bearer " ++ token))]);
                            json_kw (PDict [("channel", PStr channel_id); ("ts", PStr ts);
                                            ("text", PStr text)])]
                           ReturnBody).
Proof. repeat split. Qed.

(** ** Basic facts about the monad and the [requests] model *)

Lemma raise_for_status_error (r : response) (http : http_layer) (st : runtime) :
  error_status r = true ->
  raise_for_status r http st = (Raises (RequestException "HTTPError" (http_error_text r)), st).
Proof.
  unfold error_status, raise_for_status, http_error_text, raise. intros H.
  apply andb_true_iff in H. destruct H as [Hlo Hhi].
  rewrite Hlo. simpl.
  destruct (status_code r <? 500)%Z eqn:E500; simpl; [reflexivity|].
  assert (H5 : (500 <=? status_code r)%Z = true) by (apply Z.leb_le; apply Z.ltb_ge in E500; lia).
  rewrite H5, Hhi. reflexivity.
Qed.

Lemma raise_for_status_pass (r : response) (http : http_layer) (st : runtime) :
  error_status r = false ->
  raise_for_status r http st = (Returns tt, st).
Proof.
  unfold error_status, raise_for_status, ret. intros H.
  destruct (400 <=? status_code r)%Z eqn:E400; simpl in *.
  - rewrite H.
    destruct (status_code r <? 500)%Z eqn:E500.
    + apply Z.ltb_lt in E500. apply Z.ltb_ge in H. lia.
    + simpl. rewrite andb_false_r. reflexivity.
  - apply Z.leb_gt in E400.
    assert (H5 : (500 <=? status_code r)%Z = false) by (apply Z.leb_gt; lia).
    rewrite H5. reflexivity.
Qed.

Lemma success_is_not_error (r : response) :
  success_status r = true -> error_status r = false.
Proof.
  unfold success_status, error_status. intros H.
  apply andb_true_iff in H. destruct H as [_ H]. apply Z.ltb_lt in H.
  apply andb_false_iff. left. apply Z.leb_gt. lia.
Qed.

Lemma try_except_passes_other_exceptions
      {A : Type} (body : M A) (handler : exn -> M A)
      (http : http_layer) (st st' : runtime) (e : exn) :
  body http st = (Raises e, st') ->
  is_RequestException e = false ->
  try_except_RequestException body handler http st = (Raises e, st').
Proof.
  intros Hbody Hcls. unfold try_except_RequestException. rewrite Hbody, Hcls. reflexivity.
Qed.

Lemma try_except_catches_RequestException
      {A : Type} (body : M A) (handler : exn -> M A)
      (http : http_layer) (st st' : runtime) (e : exn) :
  body http st = (Raises e, st') ->
  is_RequestException e = true ->
  try_except_RequestException body handler http st = handler e http st'.
Proof.
  intros Hbody Hcls. unfold try_except_RequestException. rewrite Hbody, Hcls. reflexivity.
Qed.

(** ** Request construction *)

(** C4: [create_page] issues exactly one request, a POST to
    [base_url + "/rest/api/content"] with the JSON content type header, the
    page payload as JSON body and the given credential, whatever the HTTP
    layer answers. *)
Theorem create_page_issues_one_post :
  forall (base_url : string) (auth : pyval) (space_key title content : string)
         (http : http_layer) (fs : filesystem),
    run_requests (confluence.pages.create_page base_url auth space_key title content) http fs
    = [ mkRequest POST (base_url ++ "/rest/api/content")
          (Some (PDict [("Content-Type", PStr "application/json")]))
          None
          (Some (PDict [("type", PStr "page");
                        ("title", PStr title);
                        ("space", PDict [("key", PStr space_key)]);
                        ("body", PDict [("storage",
                                         PDict [("value", PStr content);
                                                ("representation", PStr "storage")])])]))
          None None
          (Some auth) ].
Proof.
  intros. unfold run_requests, run_exchanges, confluence.pages.create_page.
  unfold try_except_RequestException, bind, requests_post, requests_call, build_request.
  cbn [fold_left set_kwarg req_method req_url req_headers req_params req_json req_data
       req_files req_auth].
  destruct (http _) as [r|e]; cbn [files exchanges log_records initial].
  - destruct (raise_for_status r http _) as [[[]|e] st'] eqn:Hs.
    + unfold raise_for_status in Hs.
      repeat match type of Hs with context [if ?b then _ else _] => destruct b end;
        inversion Hs; subst; clear Hs;
        unfold response_json; destruct (json_decoded r) as [v|e];
        try destruct (is_RequestException e); reflexivity.
    + unfold raise_for_status in Hs.
      repeat match type of Hs with context [if ?b then _ else _] => destruct b end;
        inversion Hs; subst; clear Hs; reflexivity.
  - destruct (is_RequestException e); reflexivity.
Qed.

(** ** Symbolic execution of a wrapper *)

Ltac unfold_wrapper :=
  cbv beta iota zeta delta
    [run run_result run_exchanges run_requests run_files run_log initial
     confluence.pages.create_page confluence.pages.read_page
     confluence.pages.update_page confluence.pages.delete_page
     confluence.pages.list_pages_by_space
     confluence.attachments.upload_attachment confluence.attachments.download_attachment
     discord.messages.send_message discord.messages.delete_message
     github.repo.create_repository github.repo.delete_repository
     github.repo.update_repository github.repo.fork_repository
     github.repo.star_repository github.repo.get_repository_topics
     github.pr.create_issue github.user.follow_user
     gitlab.group.manage_group_members gitlab.group.manage_group_projects
     gitlab.jobs.manage_pipeline_jobs gitlab.mr.manage_merge_request_notes
     gitlab.user.manage_user_projects gitlab.user.manage_user_ssh_keys
     gitlab.user.manage_user_emails jira.group.update_group regular_wrapper
     gitlab.repo.manage_repository_files gitlab.issues.manage_issue_notes
     jira.issues.create_issue jira.issues.read_issue jira.issues.add_attachment_to_issue
     jira.boards.update_board jira.users.list_projects
     slack.messages.update_message slack.messages.delete_message
     slack.files.upload_file slack.channels.list_channels
     try_except_RequestException bind ret raise log_and_stringify
     logging_error logging_warning open_rb open_wb_write
     requests_get requests_post requests_put requests_patch requests_delete
     requests_call build_request
     req_method req_url req_headers req_params req_json req_data req_files req_auth
     response_json py_get py_subscript auth_item
     files exchanges log_records fst snd].

(** One step: settle [raise_for_status] by the status class, or split on the
    scrutinee of an innermost undecided [match]. *)
Ltac exec_step :=
  match goal with
  | H : error_status ?r = true |- context [raise_for_status ?r ?h ?s] =>
      rewrite (raise_for_status_error r h s H)
  | H : error_status ?r = false |- context [raise_for_status ?r ?h ?s] =>
      rewrite (raise_for_status_pass r h s H)
  | |- context [raise_for_status ?r ?h ?s] =>
      let E := fresh "Estatus" in
      destruct (error_status r) eqn:E;
      [ rewrite (raise_for_status_error r h s E)
      | rewrite (raise_for_status_pass r h s E) ]
  | |- context [match ?x with _ => _ end] =>
      lazymatch x with
      | context [match _ with _ => _ end] => fail
      | _ => let E := fresh "Ecase" in destruct x eqn:E
      end
  end.

Ltac reduce :=
  unfold_wrapper;
  cbn [is_RequestException str_exn fold_left set_kwarg List.app List.map List.length];
  unfold_wrapper.

Ltac exec := reduce; repeat (exec_step; reduce).

(** Case analysis on the catalogue, keeping the wrappers of a class [H]. *)
Ltac by_class c H :=
  destruct c; try discriminate H;
  try match goal with
      | success : on_success |- _ =>
          destruct success as [ | ? | [] ]; try discriminate H
      end;
  clear H.

(** ** One request per invocation *)

(** C6: every wrapper issues at most one HTTP request per invocation,
    whatever the HTTP layer answers: no retry, no follow-up request. *)
Theorem at_most_one_request :
  forall (c : call) (http : http_layer) (fs : filesystem),
    (List.length (run_requests (run c) http fs) <= 1)%nat.
Proof.
  intros c http fs. destruct c; exec; lia.
Qed.

(** ** Failure handling *)

Ltac settle_exchange :=
  let Hin := fresh "Hin" in
  let Hfail := fresh "Hfail" in
  intros Hin Hfail;
  cbn [In] in Hin;
  repeat match type of Hin with _ \/ _ => destruct Hin as [Hin|Hin] end;
  try contradiction;
  inversion Hin; subst;
  cbv [call_failed transport_failure http_error_status] in Hfail;
  repeat match goal with
         | H : is_RequestException _ = _ |- _ => rewrite H in Hfail
         | H : error_status _ = _ |- _ => rewrite H in Hfail
         end;
  cbn [orb] in Hfail;
  try discriminate Hfail.

(** C1, as the code has it: a wrapper whose call sits in
    [try ... except requests.RequestException] with [raise_for_status] returns
    the text of the error when its HTTP call raised a [requests] exception or was
    answered with a 4xx/5xx status; it does not raise. *)
Theorem guarded_wrapper_returns_error_text :
  forall (c : call) (http : http_layer) (fs : filesystem)
         (req : request) (o : pyres response),
    has_handler c = true ->
    In (req, o) (run_exchanges (run c) http fs) ->
    call_failed o = true ->
    run_result (run c) http fs = Returns (PStr (failure_text o)).
Proof.
  intros c http fs req o Hguard.
  by_class c Hguard;
    exec; settle_exchange; reflexivity.
Qed.

Lemma guarded_wrapper_returns_error_text_witness :
  run_result (run (Confluence_read_page "https://wiki.test" basic_auth "77")) http_not_found []
  = Returns (PStr "404 Client Error: Not Found for url: https://example.test/x").
Proof.
  apply (guarded_wrapper_returns_error_text
           (Confluence_read_page "https://wiki.test" basic_auth "77") http_not_found []
           (mkRequest GET "https://wiki.test/rest/api/content/77" None None None None None
                      (Some basic_auth))
           (Returns (json_response 404 "Not Found" "https://example.test/x" not_found_body))).
  - reflexivity.
  - left. reflexivity.
  - reflexivity.
Defined.

(** C1 fails on [create_repository]: a 404 answer comes back as the decoded
    body, a dict, and a connection error is raised to the caller. *)
Lemma create_repository_does_not_stringify_failure :
  ~ (forall (c : call) (http : http_layer) (fs : filesystem)
            (req : request) (o : pyres response),
        In (req, o) (run_exchanges (run c) http fs) ->
        call_failed o = true ->
        exists s : string, run_result (run c) http fs = Returns (PStr s))
  /\ run_result (run (GitHub_create_repository "tok" "my-repo" (Some EmptyString) false None))
                http_not_found []
     = Returns not_found_body
  /\ run_result (run (GitHub_create_repository "tok" "my-repo" (Some EmptyString) false None))
                http_unreachable []
     = Raises (RequestException "ConnectionError" "Connection refused").
Proof.
  split; [|split; reflexivity].
  intros H.
  destruct (H (GitHub_create_repository "tok" "my-repo" (Some EmptyString) false None)
              http_not_found []
              (mkRequest POST "https://api.github.com/user/repos"
                 (Some (PDict [("Authorization", PStr "token tok")]))
                 None
                 (Some (PDict [("name", PStr "my-repo");
                               ("description", PStr EmptyString);
                               ("private", PBool false)]))
                 None None None)
              (Returns (json_response 404 "Not Found" "https://example.test/x"
                                      not_found_body)))
    as [s Hs].
  - left. reflexivity.
  - reflexivity.
  - discriminate Hs.
Qed.

Ltac rewrite_status_facts H :=
  cbv [call_failed transport_failure http_error_status] in H;
  repeat match goal with
         | F : is_RequestException _ = _ |- _ => rewrite F in H
         | F : error_status _ = _ |- _ => rewrite F in H
         end;
  cbn [orb] in H.

Ltac prove_call_failed :=
  cbv [call_failed transport_failure http_error_status];
  repeat match goal with
         | F : is_RequestException _ = _ |- _ => rewrite F
         | F : error_status _ = _ |- _ => rewrite F
         end;
  reflexivity.

Ltac string_side :=
  let text := fresh "text" in
  let Hs := fresh "Hs" in
  intros [text Hs];
  first [ discriminate Hs
        | inversion Hs; subst; cbn in *; congruence
        | eexists; eexists; split; [left; reflexivity | prove_call_failed] ].

Ltac failure_side :=
  let q := fresh "q" in
  let o := fresh "o" in
  let Hin := fresh "Hin" in
  let Hfail := fresh "Hfail" in
  intros [q [o [Hin Hfail]]];
  cbn [In] in Hin;
  first [ contradiction
        | destruct Hin as [Hin|Hin]; [|contradiction];
          inversion Hin; subst; rewrite_status_facts Hfail;
          first [ discriminate Hfail | eexists; reflexivity ] ].

(** C2, as the code has it: for a guarded wrapper whose success value is the
    decoded body or a fixed status dict, and an HTTP layer whose non-error
    responses decode to a dict or a list, the returned value is a string
    exactly when the HTTP call failed. *)
Theorem string_result_iff_call_failed :
  forall (c : call) (http : http_layer) (fs : filesystem),
    failure_visible_in_type c = true ->
    (forall (req : request) (r : response),
        http req = Returns r -> error_status r = false ->
        exists v : pyval, json_decoded r = Returns v /\ is_dict_or_list v = true) ->
    ((exists s : string, run_result (run c) http fs = Returns (PStr s))
     <->
     (exists (req : request) (o : pyres response),
         In (req, o) (run_exchanges (run c) http fs) /\ call_failed o = true)).
Proof.
  intros c http fs Hclass Hbody.
  by_class c Hclass; exec;
    try match goal with
        | E : http ?q = Returns ?a, S : error_status ?a = false |- _ =>
            let Hex := fresh "Hex" in
            let v := fresh "v" in
            let Hv := fresh "Hv" in
            let Hshape := fresh "Hshape" in
            pose proof (Hbody q a E S) as Hex;
            try match goal with
                | J : json_decoded a = _ |- _ => rewrite J in Hex
                end;
            destruct Hex as [v [Hv Hshape]];
            try discriminate Hv;
            try (inversion Hv; subst)
        end;
    (split; [string_side | failure_side]).
Qed.

Lemma string_result_iff_call_failed_witness :
  (exists s : string,
      run_result (run (Confluence_read_page "https://wiki.test" basic_auth "77")) http_ok []
      = Returns (PStr s))
  <->
  (exists (req : request) (o : pyres response),
      In (req, o)
         (run_exchanges (run (Confluence_read_page "https://wiki.test" basic_auth "77"))
                        http_ok [])
      /\ call_failed o = true).
Proof.
  apply (string_result_iff_call_failed
           (Confluence_read_page "https://wiki.test" basic_auth "77") http_ok []).
  - reflexivity.
  - intros req r Hr _. inversion Hr; subst. exists ok_body. split; reflexivity.
Defined.

(** C2 fails on [star_repository]: a successful call returns a string too. *)
Lemma star_repository_success_is_a_string :
  ~ (forall (c : call) (http : http_layer) (fs : filesystem),
        (exists s : string, run_result (run c) http fs = Returns (PStr s))
        <->
        (exists (req : request) (o : pyres response),
            In (req, o) (run_exchanges (run c) http fs) /\ call_failed o = true))
  /\ run_result (run (GitHub_star_repository "tok" "octo" "hello")) http_no_content []
     = Returns (PStr "Successfully starred the repository.").
Proof.
  split; [|reflexivity].
  intros H.
  destruct (H (GitHub_star_repository "tok" "octo" "hello") http_no_content [])
    as [Hfwd _].
  destruct Hfwd as [req [o [Hin Hfail]]].
  - exists "Successfully starred the repository.". reflexivity.
  - cbn in Hin. destruct Hin as [Hin|[]]. inversion Hin; subst. discriminate Hfail.
Qed.

(** ** Success values *)

(** C3, as the code has it: a wrapper whose success path is
    [return response.json()] returns the decoded body of a 2xx response as it
    is. *)
Theorem decoded_body_returned_unchanged :
  forall (c : call) (http : http_layer) (fs : filesystem)
         (req : request) (r : response) (v : pyval),
    returns_decoded_body c = true ->
    In (req, Returns r) (run_exchanges (run c) http fs) ->
    success_status r = true ->
    json_decoded r = Returns v ->
    run_result (run c) http fs = Returns v.
Proof.
  intros c http fs req r v Hclass.
  by_class c Hclass; exec;
    intros Hin Hok Hjson; cbn [In] in Hin;
    try contradiction;
    (destruct Hin as [Hin|Hin]; [|contradiction]);
    inversion Hin; subst;
    try (apply success_is_not_error in Hok);
    congruence.
Qed.

Lemma decoded_body_returned_unchanged_witness :
  run_result (run (Slack_update_message "xoxb" "C1" "1700000000.1" "hi")) http_ok []
  = Returns ok_body.
Proof.
  apply (decoded_body_returned_unchanged
           (Slack_update_message "xoxb" "C1" "1700000000.1" "hi") http_ok []
           (mkRequest POST "https://slack.com/api/chat.update"
              (Some (PDict [("Authorization", PStr "Bearer xoxb")]))
              None
              (Some (PDict [("channel", PStr "C1"); ("ts", PStr "1700000000.1");
                            ("text", PStr "hi")]))
              None None None)
           (json_response 200 "OK" "https://example.test/x" ok_body)
           ok_body).
  - reflexivity.
  - left. reflexivity.
  - reflexivity.
  - reflexivity.
Defined.

(** C3 fails on [delete_page] (and on [star_repository] and
    [get_repository_topics]): the body of the 2xx response is not what comes
    back. *)
Lemma delete_page_replaces_body :
  ~ (forall (c : call) (http : http_layer) (fs : filesystem)
            (req : request) (r : response) (v : pyval),
        In (req, Returns r) (run_exchanges (run c) http fs) ->
        success_status r = true ->
        json_decoded r = Returns v ->
        run_result (run c) http fs = Returns v)
  /\ run_result (run (Confluence_delete_page "https://wiki.test" basic_auth "77")) http_ok []
     = Returns (PDict [("status", PStr "Page deleted successfully")])
  /\ run_result (run (GitHub_star_repository "tok" "octo" "hello")) http_ok []
     = Returns (PStr "Successfully starred the repository.")
  /\ run_result (run (GitHub_get_repository_topics "tok" "octo" "hello"))
                (always (Returns (json_response 200 "OK" "https://example.test/x"
                                    (PDict [("names", PList [PStr "rocq"])])))) []
     = Returns (PList [PStr "rocq"]).
Proof.
  split; [|repeat split; reflexivity].
  intros H.
  specialize (H (Confluence_delete_page "https://wiki.test" basic_auth "77") http_ok []
                (mkRequest DELETE "https://wiki.test/rest/api/content/77"
                           None None None None None (Some basic_auth))
                (json_response 200 "OK" "https://example.test/x" ok_body)
                ok_body).
  assert (Hbad : run_result (run (Confluence_delete_page "https://wiki.test" basic_auth "77"))
                            http_ok [] = Returns ok_body).
  { apply H; [left; reflexivity | reflexivity | reflexivity]. }
  discriminate Hbad.
Qed.

(** C5, as the code has it: on a 2xx response Confluence [delete_page] and
    Discord [delete_message] discard the body of the response, whether or not
    it decodes, and return their fixed status dict.  Each half holds for its
    own call, HTTP layer and file system. *)
Theorem delete_wrappers_return_fixed_status :
  (forall (base_url : string) (auth : pyval) (page_id : string)
          (http : http_layer) (fs : filesystem) (req : request) (r : response),
      In (req, Returns r)
         (run_exchanges (confluence.pages.delete_page base_url auth page_id) http fs) ->
      success_status r = true ->
      run_result (confluence.pages.delete_page base_url auth page_id) http fs
      = Returns (PDict [("status", PStr "Page deleted successfully")]))
  /\
  (forall (token channel_id message_id : string)
          (http : http_layer) (fs : filesystem) (req : request) (r : response),
      In (req, Returns r)
         (run_exchanges (discord.messages.delete_message token channel_id message_id)
                        http fs) ->
      success_status r = true ->
      run_result (discord.messages.delete_message token channel_id message_id) http fs
      = Returns (PDict [("status", PStr "Message deleted successfully")])).
Proof.
  split.
  - intros base_url auth page_id http fs req r Hin Hok.
    apply success_is_not_error in Hok. revert Hin.
    exec; intros Hin; cbn [In] in Hin;
      (destruct Hin as [Hin|Hin]; [|contradiction]); inversion Hin; subst;
      congruence.
  - intros token channel_id message_id http fs req r Hin Hok.
    apply success_is_not_error in Hok. revert Hin.
    exec; intros Hin; cbn [In] in Hin;
      (destruct Hin as [Hin|Hin]; [|contradiction]); inversion Hin; subst;
      congruence.
Qed.

Lemma delete_wrappers_return_fixed_status_witness :
  run_result (confluence.pages.delete_page "https://wiki.test" basic_auth "77") http_ok []
  = Returns (PDict [("status", PStr "Page deleted successfully")])
  /\
  run_result (discord.messages.delete_message "bot-token" "100" "200") http_no_content []
  = Returns (PDict [("status", PStr "Message deleted successfully")]).
Proof.
  split.
  - apply (proj1 delete_wrappers_return_fixed_status
             "https://wiki.test" basic_auth "77" http_ok []
             (mkRequest DELETE "https://wiki.test/rest/api/content/77"
                        None None None None None (Some basic_auth))
             (json_response 200 "OK" "https://example.test/x" ok_body)).
    + left. reflexivity.
    + reflexivity.
  - apply (proj2 delete_wrappers_return_fixed_status
             "bot-token" "100" "200" http_no_content []
             (mkRequest DELETE "https://discord.com/api/v9/channels/100/messages/200"
                        (Some (PDict [("Authorization", PStr "Bot bot-token")]))
                        None None None None None)
             (mkResponse 204 "No Content" "https://example.test/x" EmptyString
                (Raises (RequestException "JSONDecodeError"
                           "Expecting value: line 1 column 1 (char 0)")))).
    + left. reflexivity.
    + reflexivity.
Defined.

(** C5 fails on Slack [delete_message] (and on GitHub [delete_repository]):
    these delete wrappers return the decoded body, so what they return on a
    2xx response depends on what the server sent back. *)
Lemma slack_delete_message_returns_the_body :
  ~ (forall c : call,
        delete_style c = true ->
        exists fixed : pyval,
          forall (http : http_layer) (fs : filesystem) (req : request) (r : response),
            In (req, Returns r) (run_exchanges (run c) http fs) ->
            success_status r = true ->
            run_result (run c) http fs = Returns fixed)
  /\ run_result (run (Slack_delete_message "xoxb" "C1" "1700000000.1")) http_ok []
     = Returns ok_body
  /\ run_result (run (Slack_delete_message "xoxb" "C1" "1700000000.1")) http_project_list []
     = Returns (PList [PDict [("key", PStr "PROJ")]])
  /\ run_result (run (GitHub_delete_repository "tok" "octo" "hello")) http_ok []
     = Returns ok_body.
Proof.
  split; [|repeat split; reflexivity].
  intros H.
  destruct (H (Slack_delete_message "xoxb" "C1" "1700000000.1") eq_refl) as [fixed Hfixed].
  pose proof (Hfixed http_ok []
                (mkRequest POST "https://slack.com/api/chat.delete"
                   (Some (PDict [("Authorization", PStr "Bearer xoxb")]))
                   None
                   (Some (PDict [("channel", PStr "C1"); ("ts", PStr "1700000000.1")]))
                   None None None)
                (json_response 200 "OK" "https://example.test/x" ok_body)
                (or_introl eq_refl) eq_refl) as H1.
  pose proof (Hfixed http_project_list []
                (mkRequest POST "https://slack.com/api/chat.delete"
                   (Some (PDict [("Authorization", PStr "Bearer xoxb")]))
                   None
                   (Some (PDict [("channel", PStr "C1"); ("ts", PStr "1700000000.1")]))
                   None None None)
                (json_response 200 "OK" "https://jira.test/rest/api/2/project"
                   (PList [PDict [("key", PStr "PROJ")]]))
                (or_introl eq_refl) eq_refl) as H2.
  cbv in H1, H2. congruence.
Qed.

(** ** Payloads *)

(** C8: the PUT that [update_page] issues carries [version + 1] as the
    version number, never the number it was given. *)
Theorem update_page_sends_next_version :
  forall (base_url : string) (auth : pyval) (page_id : string) (version : Z)
         (title content : string) (http : http_layer) (fs : filesystem),
    run_requests (confluence.pages.update_page base_url auth page_id version title content)
                 http fs
    = [ mkRequest PUT (base_url ++ "/rest/api/content/" ++ page_id)
          (Some (PDict [("Content-Type", PStr "application/json")]))
          None
          (Some (PDict [("version", PDict [("number", PInt (version + 1))]);
                        ("title", PStr title);
                        ("type", PStr "page");
                        ("body", PDict [("storage",
                                         PDict [("value", PStr content);
                                                ("representation", PStr "storage")])])]))
          None None
          (Some auth) ]
    /\ PInt (version + 1) <> PInt version.
Proof.
  intros. split.
  - exec; reflexivity.
  - intros H. inversion H. lia.
Qed.

Lemma remove_None_values_spec (payload : list (string * pyval)) (k : string) (v : pyval) :
  In (k, v) (github.repo.remove_None_values payload)
  <-> In (k, v) payload /\ v <> PNone.
Proof.
  unfold github.repo.remove_None_values. rewrite filter_In. cbn [snd].
  split; intros [Hin Hv]; split; try assumption.
  - intros ->. discriminate Hv.
  - destruct v; try reflexivity. contradiction.
Qed.

(** C9: the JSON body of the PATCH that [update_repository] issues holds
    exactly the keys among "name", "description" and "private" whose argument
    is not [None], each with the argument's value. *)
Theorem update_repository_omits_None_fields :
  forall (auth_token owner repo : string) (name description : option string)
         (private : option bool) (http : http_layer) (fs : filesystem),
    run_requests (github.repo.update_repository auth_token owner repo name description private)
                 http fs
    = [ mkRequest PATCH ("https://api.github.com/repos/" ++ owner ++ "/" ++ repo)
          (Some (PDict [("Authorization", PStr ("token " ++ auth_token))]))
          None
          (Some (PDict (github.repo.update_repository_payload name description private)))
          None None None ]
    /\ (forall k : string,
           In k (dict_keys (github.repo.update_repository_payload name description private))
           <-> (k = "name" /\ name <> None)
               \/ (k = "description" /\ description <> None)
               \/ (k = "private" /\ private <> None))
    /\ dict_get (github.repo.update_repository_payload name description private) "name"
       = option_map PStr name
    /\ dict_get (github.repo.update_repository_payload name description private) "description"
       = option_map PStr description
    /\ dict_get (github.repo.update_repository_payload name description private) "private"
       = option_map PBool private.
Proof.
  intros. split; [|split].
  - exec; reflexivity.
  - intros k.
    destruct name as [n|], description as [d|], private as [p|];
      cbn; split; intros H;
      repeat match goal with
             | H : _ \/ _ |- _ => destruct H
             | H : _ /\ _ |- _ => destruct H
             | H : False |- _ => contradiction
             end;
      subst;
      try congruence;
      first [ left; split; [reflexivity | discriminate]
            | right; left; split; [reflexivity | discriminate]
            | right; right; split; [reflexivity | discriminate]
            | tauto ].
  - destruct name, description, private; repeat split; reflexivity.
Qed.

(** ** Exceptions that are not converted *)

Lemma upload_file_needs_the_file
      (token channels file_path : string) (http : http_layer) (fs : filesystem) :
  (forall data : string, dict_get fs file_path <> Some (RegularFile data)) ->
  (exists msg : string,
      run_result (slack.files.upload_file token channels file_path) http fs
      = Raises (OSError msg))
  /\ run_requests (slack.files.upload_file token channels file_path) http fs = [].
Proof.
  intros Hmissing. unfold_wrapper.
  destruct (String.eqb file_path EmptyString); [split; [eexists|]; reflexivity|].
  destruct (dict_get fs file_path) as [[data| |os_error]|] eqn:E.
  - exfalso. exact (Hmissing data eq_refl).
  - split; [eexists|]; reflexivity.
  - split; [eexists|]; reflexivity.
  - split; [eexists|]; reflexivity.
Qed.

Lemma jira_create_issue_needs_both_keys
      (server_url : string) (auth : list (string * string))
      (project_key issue_type summary description : string)
      (http : http_layer) (fs : filesystem) :
  dict_get auth "username" = None \/ dict_get auth "password" = None ->
  (exists key : string,
      (key = "username" \/ key = "password")
      /\ run_result (jira.issues.create_issue server_url auth project_key issue_type
                                              summary description) http fs
         = Raises (KeyError key))
  /\ run_requests (jira.issues.create_issue server_url auth project_key issue_type
                                            summary description) http fs = [].
Proof.
  intros Hmissing. unfold_wrapper.
  destruct (dict_get auth "username") as [u|] eqn:Eu.
  - destruct Hmissing as [H|H]; [discriminate H|]. rewrite H. reduce.
    split; [exists "password"; split; [right|]|]; reflexivity.
  - reduce. split; [exists "username"; split; [left|]|]; reflexivity.
Qed.

(** C10: an exception that is not a [requests.RequestException] is not
    converted.  Each of the four parts holds for its own wrapper, HTTP layer
    and file system.  (1) If the HTTP call of any wrapper raises such an
    exception, the wrapper raises it.  (2) If [.json()] raises such an
    exception in a wrapper that returns the decoded body, the wrapper raises
    it.  (3) Slack [upload_file] with a path that is not a readable file
    raises [OSError] and issues no request.  (4) Jira [create_issue] with a
    credential dict that lacks "username" or "password" raises [KeyError] for
    the missing key and issues no request. *)
Theorem only_RequestException_is_converted :
  (forall (c : call) (http : http_layer) (fs : filesystem) (req : request) (e : exn),
      In (req, Raises e) (run_exchanges (run c) http fs) ->
      is_RequestException e = false ->
      run_result (run c) http fs = Raises e)
  /\
  (forall (c : call) (http : http_layer) (fs : filesystem)
          (req : request) (r : response) (e : exn),
      returns_decoded_body c = true ->
      In (req, Returns r) (run_exchanges (run c) http fs) ->
      error_status r = false ->
      json_decoded r = Raises e ->
      is_RequestException e = false ->
      run_result (run c) http fs = Raises e)
  /\
  (forall (token channels file_path : string) (http : http_layer) (fs : filesystem),
      (forall data : string, dict_get fs file_path <> Some (RegularFile data)) ->
      (exists msg : string,
          run_result (slack.files.upload_file token channels file_path) http fs
          = Raises (OSError msg))
      /\ run_requests (slack.files.upload_file token channels file_path) http fs = [])
  /\
  (forall (server_url : string) (auth : list (string * string))
          (project_key issue_type summary description : string)
          (http : http_layer) (fs : filesystem),
      dict_get auth "username" = None \/ dict_get auth "password" = None ->
      (exists key : string,
          (key = "username" \/ key = "password")
          /\ run_result (jira.issues.create_issue server_url auth project_key issue_type
                                                  summary description) http fs
             = Raises (KeyError key))
      /\ run_requests (jira.issues.create_issue server_url auth project_key issue_type
                                                summary description) http fs = []).
Proof.
  split; [|split; [|split]].
  - intros c http fs req e Hin He. revert Hin.
    destruct c; exec; intros Hin; cbn [In] in Hin;
      try contradiction;
      (destruct Hin as [Hin|Hin]; [|contradiction]);
      inversion Hin; subst; congruence.
  - intros c http fs req r e Hclass Hin Hstatus Hjson He. revert Hin.
    by_class c Hclass; exec;
      intros Hin; cbn [In] in Hin;
      try contradiction;
      (destruct Hin as [Hin|Hin]; [|contradiction]);
      inversion Hin; subst; congruence.
  - intros token channels file_path http fs Hfile.
    apply upload_file_needs_the_file. exact Hfile.
  - intros server_url auth project_key issue_type summary description http fs Hauth.
    apply jira_create_issue_needs_both_keys. exact Hauth.
Qed.

Lemma only_RequestException_is_converted_witness :
  run_result (run (Confluence_read_page "https://wiki.test" basic_auth "77"))
             http_by_method []
  = Raises (OtherException "MemoryError" EmptyString)
  /\ run_result (run (Slack_update_message "xoxb" "C1" "1700000000.1" "hi"))
                http_by_method []
     = Raises (OtherException "RecursionError" "maximum recursion depth exceeded")
  /\ ((exists msg : string,
          run_result (slack.files.upload_file "xoxb" "C1" "/tmp/missing.txt") http_ok []
          = Raises (OSError msg))
      /\ run_requests (slack.files.upload_file "xoxb" "C1" "/tmp/missing.txt") http_ok []
         = [])
  /\ ((exists key : string,
          (key = "username" \/ key = "password")
          /\ run_result (jira.issues.create_issue "https://jira.test" [("username", "bob")]
                                                  "PROJ" "Bug" "crash" "it crashes")
                        http_ok []
             = Raises (KeyError key))
      /\ run_requests (jira.issues.create_issue "https://jira.test" [("username", "bob")]
                                                "PROJ" "Bug" "crash" "it crashes")
                      http_ok [] = []).
Proof.
  destruct only_RequestException_is_converted as [Hcall [Hjson [Hfile Hkey]]].
  split; [|split; [|split]].
  - apply (Hcall (Confluence_read_page "https://wiki.test" basic_auth "77")
                 http_by_method []
                 (mkRequest GET "https://wiki.test/rest/api/content/77"
                            None None None None None (Some basic_auth))
                 (OtherException "MemoryError" EmptyString)).
    + left. reflexivity.
    + reflexivity.
  - apply (Hjson (Slack_update_message "xoxb" "C1" "1700000000.1" "hi")
                 http_by_method []
                 (mkRequest POST "https://slack.com/api/chat.update"
                    (Some (PDict [("Authorization", PStr "Bearer xoxb")]))
                    None
                    (Some (PDict [("channel", PStr "C1"); ("ts", PStr "1700000000.1");
                                  ("text", PStr "hi")]))
                    None None None)
                 (mkResponse 200 "OK" "https://example.test/x" "[[[[[[[[[["
                    (Raises (OtherException "RecursionError"
                               "maximum recursion depth exceeded")))
                 (OtherException "RecursionError" "maximum recursion depth exceeded")).
    + reflexivity.
    + left. reflexivity.
    + reflexivity.
    + reflexivity.
    + reflexivity.
  - apply (Hfile "xoxb" "C1" "/tmp/missing.txt" http_ok []).
    intros data H. discriminate H.
  - apply (Hkey "https://jira.test" [("username", "bob")] "PROJ" "Bug" "crash" "it crashes"
                http_ok []).
    right. reflexivity.
Defined.

(** ** State shared across calls *)

(** C7, as the code has it: a wrapper that does not open a local file reads
    nothing of the state earlier calls left behind.  From any two states it
    returns the same value (or raises the same exception); it leaves the files
    as they are; and what it adds to the record of HTTP calls and to the log
    is what it adds from a blank state. *)
Theorem file_free_wrapper_ignores_state :
  forall (c : call) (http : http_layer) (st1 st2 : runtime),
    opens_file c = false ->
    fst (run c http st1) = fst (run c http st2)
    /\ files (snd (run c http st1)) = files st1
    /\ exchanges (snd (run c http st1))
       = List.app (exchanges st1) (run_exchanges (run c) http [])
    /\ log_records (snd (run c http st1))
       = List.app (log_records st1) (run_log (run c) http []).
Proof.
  intros c http [fs1 ex1 lg1] [fs2 ex2 lg2] Hclass.
  by_class c Hclass; exec;
    repeat split; rewrite ?app_nil_r; reflexivity.
Qed.

Lemma file_free_wrapper_ignores_state_witness :
  fst (run (Discord_send_message "bot-token" "100" "hi") http_ok (initial []))
  = fst (run (Discord_send_message "bot-token" "100" "hi") http_ok busy_state)
  /\ files (snd (run (Discord_send_message "bot-token" "100" "hi") http_ok (initial [])))
     = files (initial [])
  /\ exchanges (snd (run (Discord_send_message "bot-token" "100" "hi") http_ok (initial [])))
     = List.app (exchanges (initial []))
                (run_exchanges (run (Discord_send_message "bot-token" "100" "hi")) http_ok [])
  /\ log_records (snd (run (Discord_send_message "bot-token" "100" "hi") http_ok (initial [])))
     = List.app (log_records (initial []))
                (run_log (run (Discord_send_message "bot-token" "100" "hi")) http_ok []).
Proof.
  apply (file_free_wrapper_ignores_state
           (Discord_send_message "bot-token" "100" "hi") http_ok (initial []) busy_state).
  reflexivity.
Defined.

(** C7 fails on [download_attachment]: with the same arguments and the same
    answer of the HTTP layer, the outcome depends on the file system, and the
    call changes the file system. *)
Lemma download_attachment_depends_on_files :
  ~ (forall (c : call) (http : http_layer) (st1 st2 : runtime),
        fst (run c http st1) = fst (run c http st2)
        /\ files (snd (run c http st1)) = files st1)
  /\ run_exchanges (run (Confluence_download_attachment "https://wiki.test" basic_auth
                           "att9" "/tmp/out"))
                   http_download []
     = run_exchanges (run (Confluence_download_attachment "https://wiki.test" basic_auth
                             "att9" "/tmp/out"))
                     http_download [("/tmp/out", Directory)]
  /\ run_result (run (Confluence_download_attachment "https://wiki.test" basic_auth
                        "att9" "/tmp/out"))
                http_download []
     = Returns PNone
  /\ run_result (run (Confluence_download_attachment "https://wiki.test" basic_auth
                        "att9" "/tmp/out"))
                http_download [("/tmp/out", Directory)]
     = Raises (OSError "[Errno 21] Is a directory: '/tmp/out'")
  /\ run_files (run (Confluence_download_attachment "https://wiki.test" basic_auth
                       "att9" "/tmp/out"))
               http_download []
     = [("/tmp/out", RegularFile "%PDF-1.7")].
Proof.
  split; [|repeat split; reflexivity].
  intros H.
  destruct (H (Confluence_download_attachment "https://wiki.test" basic_auth
                 "att9" "/tmp/out")
              http_download (initial []) (initial [("/tmp/out", Directory)]))
    as [Hsame _].
  discriminate Hsame.
Qed.

(** * Further properties of the wrappers *)

Ltac unfold_added :=
  cbv beta iota zeta delta
    [github.repo.list_user_repositories github.pr.update_issue github.pr.remove_milestone
     jira.issues.list_issues_by_filter].

Ltac exec_added := unfold_added; exec.

Ltac single_exchange Hin :=
  cbn [In] in Hin;
  try contradiction;
  (destruct Hin as [Hin|Hin]; [|contradiction]);
  inversion Hin; subst.

(** ** Keywords and the request *)

Lemma set_kwargs_keep_method_and_url (kwargs : list kwarg) (r : request) :
  req_method (fold_left (fun r k => set_kwarg k r) kwargs r) = req_method r
  /\ req_url (fold_left (fun r k => set_kwarg k r) kwargs r) = req_url r.
Proof.
  revert r. induction kwargs as [|k rest IH]; intros r; cbn [fold_left].
  - split; reflexivity.
  - destruct (IH (set_kwarg k r)) as [Hm Hu]. rewrite Hm, Hu.
    destruct k; split; reflexivity.
Qed.

Lemma build_request_method (m : http_method) (url : string) (kwargs : list kwarg) :
  req_method (build_request m url kwargs) = m.
Proof. unfold build_request. apply set_kwargs_keep_method_and_url. Qed.

Lemma build_request_url (m : http_method) (url : string) (kwargs : list kwarg) :
  req_url (build_request m url kwargs) = url.
Proof. unfold build_request. apply set_kwargs_keep_method_and_url. Qed.

Lemma build_request_auth_last (m : http_method) (url : string) (kwargs : list kwarg)
      (a : pyval) :
  req_auth (build_request m url (List.app kwargs [auth_kw a])) = Some a.
Proof.
  unfold build_request. rewrite fold_left_app. reflexivity.
Qed.

(** X1: a regular wrapper issues its one request with the verb and the URL it
    built, whatever keywords it passes; a Jira wrapper whose credential dict
    has both keys sends them as the basic-auth pair. *)
Theorem regular_wrapper_request_target :
  forall (verb : http_method) (url : string) (kwargs : list kwarg) (success : on_success)
         (auth : list (string * string)) (u p : string)
         (http : http_layer) (fs : filesystem),
    dict_get auth "username" = Some u ->
    dict_get auth "password" = Some p ->
    (exists r : request,
        run_requests (regular_wrapper None verb url kwargs success) http fs = [r]
        /\ req_method r = verb /\ req_url r = url)
    /\
    (exists r : request,
        run_requests (regular_wrapper (Some auth) verb url kwargs success) http fs = [r]
        /\ req_method r = verb /\ req_url r = url
        /\ req_auth r = Some (PTuple [PStr u; PStr p])).
Proof.
  intros verb url kwargs success auth u p http fs Hu Hp. split.
  - exists (build_request verb url kwargs).
    split; [|split; [apply build_request_method | apply build_request_url]].
    destruct success; exec; reflexivity.
  - exists (build_request verb url (List.app kwargs [auth_kw (PTuple [PStr u; PStr p])])).
    split; [|split; [apply build_request_method
                    |split; [apply build_request_url | apply build_request_auth_last]]].
    destruct success; unfold_wrapper; rewrite Hu; unfold_wrapper; rewrite Hp;
      exec; reflexivity.
Qed.

Lemma regular_wrapper_request_target_witness :
  (exists r : request,
      run_requests (regular_wrapper None GET "https://jira.test/rest/api/2/issue/PROJ-1"
                      [headers_kw (PDict [("Content-Type", PStr "application/json")])]
                      ReturnBody) http_ok [] = [r]
      /\ req_method r = GET /\ req_url r = "https://jira.test/rest/api/2/issue/PROJ-1")
  /\
  (exists r : request,
      run_requests (regular_wrapper (Some [("username", "bob"); ("password", "pw")])
                      GET "https://jira.test/rest/api/2/issue/PROJ-1"
                      [headers_kw (PDict [("Content-Type", PStr "application/json")])]
                      ReturnBody) http_ok [] = [r]
      /\ req_method r = GET /\ req_url r = "https://jira.test/rest/api/2/issue/PROJ-1"
      /\ req_auth r = Some (PTuple [PStr "bob"; PStr "pw"])).
Proof.
  apply (regular_wrapper_request_target
           GET "https://jira.test/rest/api/2/issue/PROJ-1"
           [headers_kw (PDict [("Content-Type", PStr "application/json")])] ReturnBody
           [("username", "bob"); ("password", "pw")] "bob" "pw" http_ok []).
  - reflexivity.
  - reflexivity.
Defined.

(** X2: a Jira wrapper of the regular shape looks up "username" first and
    "password" second, inside the [try]: a missing key raises [KeyError] for
    the first key that is missing, no request is issued and nothing is
    logged. *)
Theorem jira_wrapper_missing_credential_key :
  forall (verb : http_method) (url : string) (kwargs : list kwarg) (success : on_success)
         (auth1 auth2 : list (string * string)) (u : string)
         (http : http_layer) (fs : filesystem),
    dict_get auth1 "username" = None ->
    dict_get auth2 "username" = Some u ->
    dict_get auth2 "password" = None ->
    (run_result (regular_wrapper (Some auth1) verb url kwargs success) http fs
     = Raises (KeyError "username")
     /\ run_requests (regular_wrapper (Some auth1) verb url kwargs success) http fs = []
     /\ run_log (regular_wrapper (Some auth1) verb url kwargs success) http fs = [])
    /\
    (run_result (regular_wrapper (Some auth2) verb url kwargs success) http fs
     = Raises (KeyError "password")
     /\ run_requests (regular_wrapper (Some auth2) verb url kwargs success) http fs = []
     /\ run_log (regular_wrapper (Some auth2) verb url kwargs success) http fs = []).
Proof.
  intros verb url kwargs success auth1 auth2 u http fs H1 H2u H2p. split.
  - unfold_wrapper. rewrite H1. reduce. repeat split; reflexivity.
  - unfold_wrapper. rewrite H2u. unfold_wrapper. rewrite H2p. reduce.
    repeat split; reflexivity.
Qed.

Lemma jira_wrapper_missing_credential_key_witness :
  (run_result (regular_wrapper (Some [("user", "bob")]) GET "https://jira.test/rest/api/2/x"
                 [] ReturnBody) http_ok []
   = Raises (KeyError "username")
   /\ run_requests (regular_wrapper (Some [("user", "bob")]) GET
                      "https://jira.test/rest/api/2/x" [] ReturnBody) http_ok [] = []
   /\ run_log (regular_wrapper (Some [("user", "bob")]) GET
                 "https://jira.test/rest/api/2/x" [] ReturnBody) http_ok [] = [])
  /\
  (run_result (regular_wrapper (Some [("username", "bob")]) GET
                 "https://jira.test/rest/api/2/x" [] ReturnBody) http_ok []
   = Raises (KeyError "password")
   /\ run_requests (regular_wrapper (Some [("username", "bob")]) GET
                      "https://jira.test/rest/api/2/x" [] ReturnBody) http_ok [] = []
   /\ run_log (regular_wrapper (Some [("username", "bob")]) GET
                 "https://jira.test/rest/api/2/x" [] ReturnBody) http_ok [] = []).
Proof.
  apply (jira_wrapper_missing_credential_key
           GET "https://jira.test/rest/api/2/x" [] ReturnBody
           [("user", "bob")] [("username", "bob")] "bob" http_ok []);
    reflexivity.
Defined.

(** ** The action dispatchers *)

(** Settle the comparisons of two string literals. *)
Ltac decide_literals :=
  repeat match goal with
         | |- context [String.eqb (String ?c ?s) (String ?d ?t)] =>
             let v := eval vm_compute in (String.eqb (String c s) (String d t)) in
             change (String.eqb (String c s) (String d t)) with v
         end.

(** X3: a GitLab dispatcher given an action it has no branch for leaves
    [response] unbound: it raises [UnboundLocalError], which the handler does
    not catch, issues no request and logs nothing.  The two-way dispatchers
    know "add" and "remove", the note dispatchers "add", "update" and
    "delete". *)
Theorem dispatcher_unknown_action_raises :
  forall (server_url auth_token : string) (a b c : Z) (body : string)
         (action2 action3 : string) (http : http_layer) (fs : filesystem),
    action2 <> "add" -> action2 <> "remove" ->
    action3 <> "add" -> action3 <> "update" -> action3 <> "delete" ->
    Forall (fun m : M pyval =>
              run_result m http fs = Raises (UnboundLocalError "response")
              /\ run_requests m http fs = []
              /\ run_log m http fs = [])
           [gitlab.group.manage_group_members server_url auth_token a b action2 c;
            gitlab.group.manage_group_projects server_url auth_token a b action2;
            gitlab.user.manage_user_projects server_url auth_token a b action2;
            gitlab.user.manage_user_ssh_keys server_url auth_token a b action2;
            gitlab.user.manage_user_emails server_url auth_token a b action2;
            gitlab.issues.manage_issue_notes server_url auth_token a b c action3 body;
            gitlab.mr.manage_merge_request_notes server_url auth_token a b c action3 body].
Proof.
  intros server_url auth_token a b c body action2 action3 http fs
         Hadd Hrem Hadd3 Hupd3 Hdel3.
  apply String.eqb_neq in Hadd, Hrem, Hadd3, Hupd3, Hdel3.
  repeat constructor;
    unfold_wrapper;
    rewrite ?Hadd, ?Hrem, ?Hadd3, ?Hupd3, ?Hdel3;
    reduce; reflexivity.
Qed.

Lemma dispatcher_unknown_action_raises_witness :
  Forall (fun m : M pyval =>
            run_result m http_ok [] = Raises (UnboundLocalError "response")
            /\ run_requests m http_ok [] = []
            /\ run_log m http_ok [] = [])
         [gitlab.group.manage_group_members "https://gl.test" "t" 1 2 "delete" 30;
          gitlab.group.manage_group_projects "https://gl.test" "t" 1 2 "delete";
          gitlab.user.manage_user_projects "https://gl.test" "t" 1 2 "delete";
          gitlab.user.manage_user_ssh_keys "https://gl.test" "t" 1 2 "delete";
          gitlab.user.manage_user_emails "https://gl.test" "t" 1 2 "delete";
          gitlab.issues.manage_issue_notes "https://gl.test" "t" 1 2 30 "remove" "note";
          gitlab.mr.manage_merge_request_notes "https://gl.test" "t" 1 2 30 "remove" "note"].
Proof.
  apply (dispatcher_unknown_action_raises
           "https://gl.test" "t" 1 2 30 "note" "delete" "remove" http_ok []);
    intros H; discriminate H.
Defined.

(** X4: [manage_issue_notes] maps "add" to a POST and "update" to a PUT, both
    with the note body as JSON, and "delete" to a DELETE without a body, all
    three to the URL of the note. *)
Theorem manage_issue_notes_verbs :
  forall (server_url auth_token : string) (project_id issue_id note_id : Z)
         (body : string) (http : http_layer) (fs : filesystem),
    let url := server_url ++ "/api/v4/projects/" ++ str_of_int project_id
               ++ "/issues/" ++ str_of_int issue_id
               ++ "/notes/" ++ str_of_int note_id in
    let headers := Some (PDict [("Authorization", PStr ("Bearer " ++ auth_token))]) in
    let payload := Some (PDict [("body", PStr body)]) in
    run_requests (gitlab.issues.manage_issue_notes server_url auth_token project_id
                    issue_id note_id "add" body) http fs
    = [mkRequest POST url headers None payload None None None]
    /\ run_requests (gitlab.issues.manage_issue_notes server_url auth_token project_id
                       issue_id note_id "update" body) http fs
       = [mkRequest PUT url headers None payload None None None]
    /\ run_requests (gitlab.issues.manage_issue_notes server_url auth_token project_id
                       issue_id note_id "delete" body) http fs
       = [mkRequest DELETE url headers None None None None None].
Proof.
  intros. subst url headers payload.
  repeat split; unfold_wrapper; decide_literals; exec; reflexivity.
Qed.

(** X5: [manage_repository_files] sends a DELETE when the action is "delete"
    and a POST for every other action, "update" and unknown actions included;
    the action, the content and the commit message go out as the JSON body
    either way, so it always issues exactly one request. *)
Theorem manage_repository_files_verb :
  forall (server_url auth_token : string) (project_id : Z)
         (file_path action content commit_message : string)
         (http : http_layer) (fs : filesystem),
    run_requests (gitlab.repo.manage_repository_files server_url auth_token project_id
                    file_path action content commit_message) http fs
    = [mkRequest (if String.eqb action "delete" then DELETE else POST)
         (server_url ++ "/api/v4/projects/" ++ str_of_int project_id
          ++ "/repository/files/" ++ file_path)
         (Some (PDict [("Authorization", PStr ("Bearer " ++ auth_token))]))
         None
         (Some (PDict [("action", PStr action);
                       ("content", PStr content);
                       ("commit_message", PStr commit_message)]))
         None None None].
Proof.
  intros. exec; reflexivity.
Qed.

(** ** Jira [list_projects] *)

(** X6: [list_projects] never uses its [server_url] argument: the URL is the
    string literal "{server_url}/rest/api/2/project", braces included, so the
    request goes to the same place whatever server is named. *)
Theorem list_projects_url_is_literal :
  forall (server_url : string) (auth : list (string * string)) (u p : string)
         (http : http_layer) (fs : filesystem),
    dict_get auth "username" = Some u ->
    dict_get auth "password" = Some p ->
    run_requests (jira.users.list_projects server_url auth) http fs
    = [mkRequest GET "{server_url}/rest/api/2/project"
         (Some (PDict [("Content-Type", PStr "application/json")]))
         None None None None
         (Some (PTuple [PStr u; PStr p]))].
Proof.
  intros server_url auth u p http fs Hu Hp.
  unfold_wrapper. rewrite Hu. unfold_wrapper. rewrite Hp. exec; reflexivity.
Qed.

Lemma list_projects_url_is_literal_witness :
  run_requests (jira.users.list_projects "https://jira.example.org"
                  [("username", "bob"); ("password", "pw")]) http_ok []
  = [mkRequest GET "{server_url}/rest/api/2/project"
       (Some (PDict [("Content-Type", PStr "application/json")]))
       None None None None
       (Some (PTuple [PStr "bob"; PStr "pw"]))].
Proof.
  apply (list_projects_url_is_literal "https://jira.example.org"
           [("username", "bob"); ("password", "pw")] "bob" "pw" http_ok []);
    reflexivity.
Defined.

(** X7: on a non-error response [list_projects] returns [body["values"]]:
    a dict body without that key raises [KeyError], a body that is not a dict
    raises the [TypeError] of Python for a string subscript on a value of its
    type (for a JSON list: "list indices must be integers or slices, not
    str"); neither is caught. *)
Theorem list_projects_needs_values_key :
  forall (server_url : string) (auth : list (string * string))
         (http : http_layer) (fs : filesystem)
         (req : request) (r : response) (body : pyval),
    In (req, Returns r) (run_exchanges (jira.users.list_projects server_url auth) http fs) ->
    error_status r = false ->
    json_decoded r = Returns body ->
    run_result (jira.users.list_projects server_url auth) http fs
    = match body with
      | PDict d =>
          match dict_get d "values" with
          | Some v => Returns v
          | None => Raises (KeyError "values")
          end
      | _ => Raises (TypeError (str_subscript_error_text body))
      end.
Proof.
  intros server_url auth http fs req r body.
  exec; intros Hin Hstatus Hjson; single_exchange Hin; try congruence;
    match goal with
    | J : json_decoded _ = Returns ?b |- _ =>
        rewrite J in Hjson; inversion Hjson; subst
    end;
    try reflexivity;
    cbn [is_RequestException] in *; try discriminate;
    match goal with
    | E : dict_get _ "values" = _ |- _ => rewrite E; reflexivity
    end.
Qed.

Lemma list_projects_needs_values_key_witness :
  run_result (jira.users.list_projects "https://jira.test"
                [("username", "bob"); ("password", "pw")]) http_project_list []
  = Raises (TypeError "list indices must be integers or slices, not str").
Proof.
  apply (list_projects_needs_values_key "https://jira.test"
           [("username", "bob"); ("password", "pw")] http_project_list []
           (mkRequest GET "{server_url}/rest/api/2/project"
              (Some (PDict [("Content-Type", PStr "application/json")]))
              None None None None (Some (PTuple [PStr "bob"; PStr "pw"])))
           (json_response 200 "OK" "https://jira.test/rest/api/2/project"
              (PList [PDict [("key", PStr "PROJ")]]))
           (PList [PDict [("key", PStr "PROJ")]])).
  - left. reflexivity.
  - reflexivity.
  - reflexivity.
Defined.

(** ** Wrappers that return one field of the body *)

(** X8: a wrapper whose success path is [response.json().get(key, [])]
    returns the value under [key] of a dict body and the empty list when the
    key is absent; a body that is not a dict raises the [AttributeError] of
    Python for a value of its type (for a JSON list: "'list' object has no
    attribute 'get'"), which is not caught. *)
Theorem field_wrapper_defaults_to_empty_list :
  forall (credential : option (list (string * string))) (verb : http_method)
         (url : string) (kwargs : list kwarg) (key : string)
         (http : http_layer) (fs : filesystem)
         (req : request) (r : response) (body : pyval),
    In (req, Returns r)
       (run_exchanges (regular_wrapper credential verb url kwargs (ReturnField key)) http fs) ->
    error_status r = false ->
    json_decoded r = Returns body ->
    run_result (regular_wrapper credential verb url kwargs (ReturnField key)) http fs
    = match body with
      | PDict d => Returns (match dict_get d key with Some v => v | None => PList [] end)
      | _ => Raises (AttributeError (no_attribute_text body "get"))
      end.
Proof.
  intros credential verb url kwargs key http fs req r body.
  exec; intros Hin Hstatus Hjson; single_exchange Hin; try congruence;
    match goal with
    | J : json_decoded _ = Returns ?b |- _ =>
        rewrite J in Hjson; inversion Hjson; subst
    end;
    try reflexivity;
    cbn [is_RequestException] in *; try discriminate;
    match goal with
    | E : dict_get _ _ = _ |- _ => rewrite E; reflexivity
    end.
Qed.

Lemma field_wrapper_defaults_to_empty_list_witness :
  run_result (regular_wrapper None GET "https://slack.com/api/conversations.list"
                [headers_kw (PDict [("Authorization", PStr "Bearer xoxb")])]
                (ReturnField "channels")) http_ok []
  = Returns (PList []).
Proof.
  apply (field_wrapper_defaults_to_empty_list
           None GET "https://slack.com/api/conversations.list"
           [headers_kw (PDict [("Authorization", PStr "Bearer xoxb")])] "channels"
           http_ok []
           (mkRequest GET "https://slack.com/api/conversations.list"
              (Some (PDict [("Authorization", PStr "Bearer xoxb")]))
              None None None None None)
           (json_response 200 "OK" "https://example.test/x" ok_body)
           ok_body).
  - left. reflexivity.
  - reflexivity.
  - reflexivity.
Defined.

(** ** Optional arguments *)

(** X9: an empty organization name counts as no organization:
    [create_repository] then posts to the user's repositories and
    [fork_repository] sends an empty JSON object. *)
Theorem empty_organization_is_no_organization :
  forall (auth_token name owner repo : string) (description : option string)
         (private : bool) (organization : option string)
         (http : http_layer) (fs : filesystem),
    organization = None \/ organization = Some EmptyString ->
    run_requests (github.repo.create_repository auth_token name description private
                    organization) http fs
    = [mkRequest POST "https://api.github.com/user/repos"
         (Some (PDict [("Authorization", PStr ("token " ++ auth_token))]))
         None
         (Some (PDict [("name", PStr name);
                       ("description", opt_str description);
                       ("private", PBool private)]))
         None None None]
    /\
    run_requests (github.repo.fork_repository auth_token owner repo organization) http fs
    = [mkRequest POST ("https://api.github.com/repos/" ++ owner ++ "/" ++ repo ++ "/forks")
         (Some (PDict [("Authorization", PStr ("token " ++ auth_token))]))
         None
         (Some (PDict []))
         None None None].
Proof.
  intros auth_token name owner repo description private organization http fs [H|H];
    subst organization; split; unfold_wrapper; cbn [truthy_opt_str String.eqb negb];
    exec; reflexivity.
Qed.

Lemma empty_organization_is_no_organization_witness :
  run_requests (github.repo.create_repository "tok" "my-repo" None false (Some EmptyString))
               http_ok []
  = [mkRequest POST "https://api.github.com/user/repos"
       (Some (PDict [("Authorization", PStr "token tok")]))
       None
       (Some (PDict [("name", PStr "my-repo"); ("description", PNone);
                     ("private", PBool false)]))
       None None None]
  /\
  run_requests (github.repo.fork_repository "tok" "octo" "hello" (Some EmptyString))
               http_ok []
  = [mkRequest POST "https://api.github.com/repos/octo/hello/forks"
       (Some (PDict [("Authorization", PStr "token tok")]))
       None (Some (PDict [])) None None None].
Proof.
  apply (empty_organization_is_no_organization
           "tok" "my-repo" "octo" "hello" None false (Some EmptyString) http_ok []).
  right. reflexivity.
Defined.

(** ** Local files *)

Lemma dict_get_fs_write_same (fs : filesystem) (path data : string) :
  dict_get (fs_write fs path data) path = Some (RegularFile data).
Proof.
  induction fs as [|[p n] rest IH]; cbn [fs_write dict_get].
  - rewrite String.eqb_refl. reflexivity.
  - destruct (String.eqb p path) eqn:E; cbn [dict_get]; rewrite E.
    + reflexivity.
    + exact IH.
Qed.

(** X10: what [download_attachment] saved is what a following [upload_file]
    of the same path sends.  When [save_path] is not empty and is a free name
    or an existing regular file, a download that was answered without an
    error status returns [None], and Slack [upload_file] of that path then
    issues its POST with the downloaded content as the file. *)
Theorem download_then_upload_sends_the_download :
  forall (base_url : string) (auth : pyval) (attachment_id path token channels : string)
         (http : http_layer) (fs : filesystem) (r : response),
    http (mkRequest GET (base_url ++ "/rest/api/content/" ++ attachment_id ++ "/download")
            None None None None None (Some auth)) = Returns r ->
    error_status r = false ->
    path <> EmptyString ->
    (dict_get fs path = None \/ exists data : string, dict_get fs path = Some (RegularFile data)) ->
    run_result (confluence.attachments.download_attachment base_url auth attachment_id path)
               http fs
    = Returns PNone
    /\
    run_requests (slack.files.upload_file token channels path) http
                 (run_files (confluence.attachments.download_attachment
                               base_url auth attachment_id path) http fs)
    = [mkRequest POST "https://slack.com/api/files.upload"
         (Some (PDict [("Authorization", PStr ("Bearer " ++ token))]))
         None None
         (Some (PDict [("channels", PStr channels)]))
         (Some (PDict [("file", PBytes (content r))]))
         None].
Proof.
  intros base_url auth attachment_id path token channels http fs r
         Hhttp Hstatus Hpath Hentry.
  apply String.eqb_neq in Hpath.
  assert (Hfiles :
            run_files (confluence.attachments.download_attachment
                         base_url auth attachment_id path) http fs
            = fs_write fs path (content r)
            /\ run_result (confluence.attachments.download_attachment
                             base_url auth attachment_id path) http fs
               = Returns PNone).
  { reduce. rewrite Hhttp. reduce.
    rewrite (raise_for_status_pass r _ _ Hstatus). reduce.
    rewrite Hpath.
    destruct Hentry as [E|[data E]]; rewrite E; reduce; split; reflexivity. }
  destruct Hfiles as [Hfiles Hres]. split; [exact Hres|].
  rewrite Hfiles. reduce. rewrite Hpath. rewrite dict_get_fs_write_same.
  exec; reflexivity.
Qed.

Lemma download_then_upload_sends_the_download_witness :
  run_result (confluence.attachments.download_attachment "https://wiki.test" basic_auth
                "att9" "/tmp/out") http_download []
  = Returns PNone
  /\
  run_requests (slack.files.upload_file "xoxb" "C1" "/tmp/out") http_download
               (run_files (confluence.attachments.download_attachment
                             "https://wiki.test" basic_auth "att9" "/tmp/out")
                          http_download [])
  = [mkRequest POST "https://slack.com/api/files.upload"
       (Some (PDict [("Authorization", PStr "Bearer xoxb")]))
       None None
       (Some (PDict [("channels", PStr "C1")]))
       (Some (PDict [("file", PBytes "%PDF-1.7")]))
       None].
Proof.
  apply (download_then_upload_sends_the_download
           "https://wiki.test" basic_auth "att9" "/tmp/out" "xoxb" "C1" http_download []
           (mkResponse 200 "OK" "https://wiki.test/rest/api/content/att9/download"
              "%PDF-1.7" (Raises (RequestException "JSONDecodeError" "Expecting value")))).
  - reflexivity.
  - reflexivity.
  - intros H. discriminate H.
  - left. reflexivity.
Defined.

(** X11: a failed download leaves the file system as it was: when the call
    raised a [requests] exception or was answered with a 4xx/5xx status,
    [download_attachment] neither creates nor truncates [save_path]. *)
Theorem failed_download_leaves_files :
  forall (base_url : string) (auth : pyval) (attachment_id save_path : string)
         (http : http_layer) (fs : filesystem) (req : request) (o : pyres response),
    In (req, o)
       (run_exchanges (confluence.attachments.download_attachment
                         base_url auth attachment_id save_path) http fs) ->
    call_failed o = true ->
    run_files (confluence.attachments.download_attachment
                 base_url auth attachment_id save_path) http fs
    = fs.
Proof.
  intros base_url auth attachment_id save_path http fs req o.
  exec; settle_exchange; reflexivity.
Qed.

Lemma failed_download_leaves_files_witness :
  run_files (confluence.attachments.download_attachment "https://wiki.test" basic_auth
               "att9" "/tmp/a.txt") http_not_found [("/tmp/a.txt", RegularFile "hello")]
  = [("/tmp/a.txt", RegularFile "hello")].
Proof.
  apply (failed_download_leaves_files
           "https://wiki.test" basic_auth "att9" "/tmp/a.txt" http_not_found
           [("/tmp/a.txt", RegularFile "hello")]
           (mkRequest GET "https://wiki.test/rest/api/content/att9/download"
              None None None None None (Some basic_auth))
           (Returns (json_response 404 "Not Found" "https://example.test/x" not_found_body))).
  - left. reflexivity.
  - reflexivity.
Defined.

(** X13: the wrappers that read a file fail on the file first.  With a path
    that is not a readable file, Confluence [upload_attachment] and Jira
    [add_attachment_to_issue] raise [OSError] although [open] sits inside
    their [try], whatever the credential dict holds; no request is issued
    and nothing is logged. *)
Theorem upload_wrappers_fail_on_the_file_first :
  forall (base_url : string) (auth : pyval) (page_id : string)
         (server_url : string) (jira_auth : list (string * string)) (issue_key : string)
         (file_path : string) (http : http_layer) (fs : filesystem),
    (forall data : string, dict_get fs file_path <> Some (RegularFile data)) ->
    Forall (fun m : M pyval =>
              (exists msg : string, run_result m http fs = Raises (OSError msg))
              /\ run_requests m http fs = []
              /\ run_log m http fs = [])
           [confluence.attachments.upload_attachment base_url auth page_id file_path;
            jira.issues.add_attachment_to_issue server_url jira_auth issue_key file_path].
Proof.
  intros base_url auth page_id server_url jira_auth issue_key file_path http fs Hmissing.
  repeat constructor;
    unfold_wrapper;
    destruct (String.eqb file_path EmptyString);
    try destruct (dict_get fs file_path) as [[data| |os_error]|] eqn:E;
    try (exfalso; exact (Hmissing data eq_refl));
    reduce; try (eexists; reflexivity); reflexivity.
Qed.

Lemma upload_wrappers_fail_on_the_file_first_witness :
  Forall (fun m : M pyval =>
            (exists msg : string, run_result m http_ok [] = Raises (OSError msg))
            /\ run_requests m http_ok [] = []
            /\ run_log m http_ok [] = [])
         [confluence.attachments.upload_attachment "https://wiki.test" basic_auth "77"
            "/tmp/missing.txt";
          jira.issues.add_attachment_to_issue "https://jira.test" [] "PROJ-1"
            "/tmp/missing.txt"].
Proof.
  apply (upload_wrappers_fail_on_the_file_first
           "https://wiki.test" basic_auth "77" "https://jira.test" [] "PROJ-1"
           "/tmp/missing.txt" http_ok []).
  intros data H. discriminate H.
Defined.

(** ** Logging *)

(** X14: a guarded wrapper logs at most one record, and only for what it
    returns as an error string: either nothing is logged, or the one record is
    "An error occurred: " followed by the very string the wrapper returns.
    When the HTTP call failed, that record is written. *)
Theorem guarded_wrapper_logs_what_it_returns :
  forall (c : call) (http : http_layer) (fs : filesystem),
    has_handler c = true ->
    (run_log (run c) http fs = []
     \/ exists text : string,
          run_log (run c) http fs = ["ERROR:An error occurred: " ++ text]
          /\ run_result (run c) http fs = Returns (PStr text))
    /\
    (forall (req : request) (o : pyres response),
        In (req, o) (run_exchanges (run c) http fs) ->
        call_failed o = true ->
        run_log (run c) http fs = ["ERROR:An error occurred: " ++ failure_text o]).
Proof.
  intros c http fs Hguard.
  by_class c Hguard; exec;
    (split;
     [ first [ left; reflexivity | right; eexists; split; reflexivity ]
     | intros req o; settle_exchange; reflexivity ]).
Qed.

Lemma guarded_wrapper_logs_what_it_returns_witness :
  (run_log (run (Discord_send_message "bot-token" "100" "hi")) http_not_found [] = []
   \/ exists text : string,
        run_log (run (Discord_send_message "bot-token" "100" "hi")) http_not_found []
        = ["ERROR:An error occurred: " ++ text]
        /\ run_result (run (Discord_send_message "bot-token" "100" "hi")) http_not_found []
           = Returns (PStr text))
  /\
  (forall (req : request) (o : pyres response),
      In (req, o)
         (run_exchanges (run (Discord_send_message "bot-token" "100" "hi"))
                        http_not_found []) ->
      call_failed o = true ->
      run_log (run (Discord_send_message "bot-token" "100" "hi")) http_not_found []
      = ["ERROR:An error occurred: " ++ failure_text o]).
Proof.
  apply (guarded_wrapper_logs_what_it_returns
           (Discord_send_message "bot-token" "100" "hi") http_not_found []).
  reflexivity.
Defined.

(** ** The unguarded GitHub wrappers *)

(** X15: [create_repository], [delete_repository] and [update_repository]
    hand the outcome of their call through: an exception of the call is
    raised as it is, and a response is answered with whatever [.json()] gives,
    the status being ignored; nothing is logged. *)
Theorem unguarded_wrapper_passes_outcome_through :
  forall (c : call) (http : http_layer) (fs : filesystem)
         (req : request) (o : pyres response),
    has_handler c = false ->
    In (req, o) (run_exchanges (run c) http fs) ->
    run_result (run c) http fs
    = match o with
      | Raises e => Raises e
      | Returns r => json_decoded r
      end
    /\ run_log (run c) http fs = [].
Proof.
  intros c http fs req o Hclass.
  destruct c; try discriminate Hclass; clear Hclass; exec;
    intros Hin; single_exchange Hin;
    split; first [ reflexivity | symmetry; assumption | assumption ].
Qed.

Lemma unguarded_wrapper_passes_outcome_through_witness :
  run_result (run (GitHub_delete_repository "tok" "octo" "hello")) http_server_error []
  = Returns (PDict [("message", PStr "Server Error")])
  /\ run_log (run (GitHub_delete_repository "tok" "octo" "hello")) http_server_error [] = [].
Proof.
  apply (unguarded_wrapper_passes_outcome_through
           (GitHub_delete_repository "tok" "octo" "hello") http_server_error []
           (mkRequest DELETE "https://api.github.com/repos/octo/hello"
              (Some (PDict [("Authorization", PStr "token tok")]))
              None None None None None)
           (Returns (json_response 500 "Internal Server Error" "https://example.test/x"
                       (PDict [("message", PStr "Server Error")])))).
  - reflexivity.
  - left. reflexivity.
Defined.

(** ** Bodies that do not decode *)

(** X16: [.json()] is called inside the [try].  When a guarded wrapper that
    returns the decoded body gets a response without an error status whose
    body does not decode, and the decoding error is a
    [requests.RequestException] (as the JSONDecodeError of requests is), the
    wrapper returns the text of that error as a string and logs it: an empty
    204 answer looks like a failure to the caller. *)
Theorem undecodable_body_becomes_error_string :
  forall (c : call) (http : http_layer) (fs : filesystem)
         (req : request) (r : response) (e : exn),
    has_handler c = true ->
    returns_decoded_body c = true ->
    In (req, Returns r) (run_exchanges (run c) http fs) ->
    error_status r = false ->
    json_decoded r = Raises e ->
    is_RequestException e = true ->
    run_result (run c) http fs = Returns (PStr (str_exn e))
    /\ run_log (run c) http fs = ["ERROR:An error occurred: " ++ str_exn e].
Proof.
  intros c http fs req r e Hguard Hclass.
  destruct c; try discriminate Hguard; try discriminate Hclass;
    try match goal with
        | success : on_success |- _ =>
            destruct success as [ | ? | [] ]; try discriminate Hclass
        end;
    clear Hguard Hclass; exec;
    intros Hin Hstatus Hjson He; single_exchange Hin; try congruence;
    try match goal with
        | J : json_decoded ?x = Raises ?e1 |- _ =>
            tryif constr_eq e1 e then fail
            else (assert (e1 = e) by congruence; subst e1)
        end;
    first [ split; reflexivity | reflexivity | congruence ].
Qed.

Lemma undecodable_body_becomes_error_string_witness :
  run_result (run (Slack_delete_message "xoxb" "C1" "1700000000.1")) http_no_content []
  = Returns (PStr "Expecting value: line 1 column 1 (char 0)")
  /\ run_log (run (Slack_delete_message "xoxb" "C1" "1700000000.1")) http_no_content []
     = ["ERROR:An error occurred: Expecting value: line 1 column 1 (char 0)"].
Proof.
  apply (undecodable_body_becomes_error_string
           (Slack_delete_message "xoxb" "C1" "1700000000.1") http_no_content []
           (mkRequest POST "https://slack.com/api/chat.delete"
              (Some (PDict [("Authorization", PStr "Bearer xoxb")]))
              None
              (Some (PDict [("channel", PStr "C1"); ("ts", PStr "1700000000.1")]))
              None None None)
           (mkResponse 204 "No Content" "https://example.test/x" EmptyString
              (Raises (RequestException "JSONDecodeError"
                         "Expecting value: line 1 column 1 (char 0)")))
           (RequestException "JSONDecodeError" "Expecting value: line 1 column 1 (char 0)")).
  - reflexivity.
  - reflexivity.
  - left. reflexivity.
  - reflexivity.
  - reflexivity.
  - reflexivity.
Defined.

(** ** Payloads that keep unset fields *)

(** X17: GitHub [update_issue] does not filter its payload: the JSON body of
    its PATCH always holds all six keys, an argument left as [None] going out
    as [None].  Leaving the milestone unset therefore sends the entry
    [("milestone", None)], which is the whole body that [remove_milestone]
    sends, with the same verb, to the same URL, to clear the milestone. *)
Theorem update_issue_sends_unset_fields :
  forall (auth_token owner repo : string) (issue_number : Z)
         (title body state : option string) (labels assignees : option (list string))
         (milestone : option Z) (http : http_layer) (fs : filesystem),
    let url := "https://api.github.com/repos/" ++ owner ++ "/" ++ repo
               ++ "/issues/" ++ str_of_int issue_number in
    let headers := Some (PDict [("Authorization", PStr ("token " ++ auth_token))]) in
    let payload := [("title", opt_str title);
                    ("body", opt_str body);
                    ("state", opt_str state);
                    ("labels", opt_str_list labels);
                    ("assignees", opt_str_list assignees);
                    ("milestone", opt_int milestone)] in
    run_requests (github.pr.update_issue auth_token owner repo issue_number
                    title body state labels assignees milestone) http fs
    = [mkRequest PATCH url headers None (Some (PDict payload)) None None None]
    /\ dict_keys payload = ["title"; "body"; "state"; "labels"; "assignees"; "milestone"]
    /\ run_requests (github.pr.remove_milestone auth_token owner repo issue_number) http fs
       = [mkRequest PATCH url headers None (Some (PDict [("milestone", PNone)]))
            None None None]
    /\ dict_get payload "milestone" = Some (opt_int milestone)
    /\ opt_int None = PNone.
Proof.
  intros. subst url headers payload. repeat split; exec_added; reflexivity.
Qed.

(** X18: Jira [list_issues_by_filter] falls back to the fields "summary,key"
    when [fields] is [None] and also when it is the empty list; a non-empty
    list is passed on as it is. *)
Theorem list_issues_by_filter_default_fields :
  forall (server_url : string) (auth : list (string * string)) (u p jql : string)
         (fields : option (list string)) (http : http_layer) (fs : filesystem),
    dict_get auth "username" = Some u ->
    dict_get auth "password" = Some p ->
    run_requests (jira.issues.list_issues_by_filter server_url auth jql fields) http fs
    = [mkRequest GET (server_url ++ "/rest/api/2/search")
         (Some (PDict [("Content-Type", PStr "application/json")]))
         (Some (PDict [("jql", PStr jql);
                       ("fields",
                        match fields with
                        | Some (f :: rest) => PList (map PStr (f :: rest))
                        | _ => PStr "summary,key"
                        end)]))
         None None None
         (Some (PTuple [PStr u; PStr p]))].
Proof.
  intros server_url auth u p jql fields http fs Hu Hp.
  unfold_added. unfold_wrapper. rewrite Hu. unfold_wrapper. rewrite Hp.
  destruct fields as [[|f rest]|]; cbn [truthy_opt_list opt_str_list]; exec; reflexivity.
Qed.

Lemma list_issues_by_filter_default_fields_witness :
  run_requests (jira.issues.list_issues_by_filter "https://jira.test"
                  [("username", "bob"); ("password", "pw")] "project = PROJ" (Some []))
               http_ok []
  = [mkRequest GET "https://jira.test/rest/api/2/search"
       (Some (PDict [("Content-Type", PStr "application/json")]))
       (Some (PDict [("jql", PStr "project = PROJ"); ("fields", PStr "summary,key")]))
       None None None
       (Some (PTuple [PStr "bob"; PStr "pw"]))].
Proof.
  apply (list_issues_by_filter_default_fields
           "https://jira.test" [("username", "bob"); ("password", "pw")] "bob" "pw"
           "project = PROJ" (Some []) http_ok []);
    reflexivity.
Defined.

(** X19: [list_user_repositories] writes its arguments into the query string
    as they are: a [sort] of [None] is not left out, the request asks for
    [sort=None]. *)
Theorem list_user_repositories_query :
  forall (auth_token username : string) (sort : option string) (per_page page : Z)
         (http : http_layer) (fs : filesystem),
    run_requests (github.repo.list_user_repositories auth_token username sort per_page page)
                 http fs
    = [mkRequest GET
         ("https://api.github.com/users/" ++ username ++ "/repos?sort="
          ++ match sort with Some s => s | None => "None" end
          ++ "&per_page=" ++ str_of_int per_page ++ "&page=" ++ str_of_int page)
         (Some (PDict [("Authorization", PStr ("token " ++ auth_token))]))
         None None None None None]
    /\ run_requests (github.repo.list_user_repositories auth_token username None
                       per_page page) http fs
       = [mkRequest GET
            ("https://api.github.com/users/" ++ username ++ "/repos?sort=None&per_page="
             ++ str_of_int per_page ++ "&page=" ++ str_of_int page)
            (Some (PDict [("Authorization", PStr ("token " ++ auth_token))]))
            None None None None None].
Proof.
  intros. split; exec_added; reflexivity.
Qed.

Example list_body_has_no_get :
  run_result (github.repo.get_repository_topics "tok" "octo" "hello") http_project_list []
  = Raises (AttributeError "'list' object has no attribute 'get'").
Proof. reflexivity. Qed.

Example list_body_has_no_string_subscript :
  run_result (jira.users.list_projects "https://jira.test"
                [("username", "bob"); ("password", "pw")]) http_project_list []
  = Raises (TypeError "list indices must be integers or slices, not str").
Proof. reflexivity. Qed.
